(** * Content negotiation and response dispatch of the geddy Responder

    Shallow embedding of [lib/controller/responder/index.js]: the
    [negotiate], [respondWith], [respondTo] and [respond] methods of the
    [Responder] constructor, followed by the properties of the
    specification that concern them.

    Conventions of the embedding.
    - A JavaScript string is a [string]: a sequence of code units in the
      range U+0000..U+00FF (node decodes header bytes as latin1, and the
      format tokens of the framework are ASCII words).
    - [undefined]/[null] for an optional string is [None]; truthiness is
      written out ([truthy_str]): the empty string is falsy.
    - An object used as a bag of options is a [gmap string value]; an
      object enumerated with [for ... in] (the strategies) is an
      association list of its own properties in enumeration order, and a
      property read on it also finds what a plain object inherits from
      [Object.prototype] ([prop]).
    - A call that throws is [Throws e], one that returns is [Returns a]. *)

From Stdlib Require Import ZArith Ascii String.
From stdpp Require Import base option list strings gmap.

Local Open Scope string_scope.
Local Open Scope list_scope.
#[local] Set Warnings "-clear-no-such-hyp".

(** ** The fragment of JavaScript the responder relies on *)

Module Js.

(** Primitive values stored in option bags and model attributes. *)
Inductive value : Type :=
| VUndefined
| VNull
| VBool (b : bool)
| VNumber (n : Z)
| VString (s : string).

#[global] Instance value_eq_dec : EqDecision value.
Proof. solve_decision. Defined.

(** ToBoolean. *)
Definition truthy (v : value) : bool :=
  match v with
  | VUndefined | VNull => false
  | VBool b => b
  | VNumber n => negb (n =? 0)%Z
  | VString s => negb (String.eqb s "")
  end.

(** [a || b]. *)
Definition or_else (a b : value) : value :=
  if truthy a then a else b.

(** ToBoolean of a value that is a string, [undefined] or [null]. *)
Definition truthy_str (o : option string) : bool :=
  match o with
  | Some s => negb (String.eqb s "")
  | None => false
  end.

(** What [if (s) ...] lets through. *)
Definition when_truthy (o : option string) : option string :=
  match o with
  | Some s => if truthy_str o then Some s else None
  | None => None
  end.

Definition of_str (o : option string) : value :=
  match o with
  | Some s => VString s
  | None => VUndefined
  end.

(** Property read [o.k] on a bag of own properties. *)
Definition get (o : gmap string value) (k : string) : value :=
  default VUndefined (o !! k).

(** [utils.mixin(target, src1, ..., srcn)]: own properties of each
    source are copied onto the target in turn, later sources winning. *)
Definition mixin (target : gmap string value)
    (sources : list (gmap string value)) : gmap string value :=
  foldl (fun targ src => src ∪ targ) target sources.

(** *** Strings *)

Definition code (c : ascii) : N := N_of_ascii c.

(** The class [\s] of regular expressions, on U+0000..U+00FF:
    TAB, LF, VT, FF, CR, SP and NBSP. *)
Definition is_space (c : ascii) : bool :=
  let n := code c in
  ((9 <=? n) && (n <=? 13) || (n =? 32) || (n =? 160))%N.

(** [String.prototype.toLowerCase] on U+0000..U+00FF: the letters A-Z
    and the accented capitals U+00C0..U+00DE (the sign U+00D7 apart)
    move up by 32. *)
Definition lower_char (c : ascii) : ascii :=
  let n := code c in
  if ((65 <=? n) && (n <=? 90)
      || (192 <=? n) && (n <=? 222) && negb (n =? 215))%N
  then ascii_of_N (n + 32)
  else c.

Fixpoint toLowerCase (s : string) : string :=
  match s with
  | EmptyString => EmptyString
  | String c r => String (lower_char c) (toLowerCase r)
  end.

(** [s.split(';')[0]]: the part of [s] before its first [;]. *)
Fixpoint before_semicolon (s : string) : string :=
  match s with
  | EmptyString => EmptyString
  | String c r =>
      if Ascii.eqb c ";" then EmptyString
      else String c (before_semicolon r)
  end.

(** Number of leading [\s] characters. *)
Fixpoint span_ws (s : string) : nat :=
  match s with
  | String c r => if is_space c then S (span_ws r) else 0
  | EmptyString => 0
  end.

Fixpoint drop_ws (s : string) : string :=
  match s with
  | String c r => if is_space c then drop_ws r else s
  | EmptyString => EmptyString
  end.

(** Length of the match of [/\s*,\s*/] anchored at the head of [s], if
    there is one. Both stars are greedy and [,] is not in [\s], so
    backtracking never finds another match. *)
Definition match_sep (s : string) : option nat :=
  match drop_ws s with
  | String c r =>
      if Ascii.eqb c "," then Some (span_ws s + 1 + span_ws r) else None
  | EmptyString => None
  end.

(** [s.split(/\s*,\s*/)], after the SplitMatcher loop of the language
    definition: [cur] holds (reversed) the characters from the end of
    the last match [p] to the position examined [q]; when the
    separator matches at [q] the piece is emitted and [q] jumps over
    the match ([skip] counts the characters still to jump); at the end
    of the string the last piece is emitted. *)
Fixpoint split_from (s : string) (skip : nat) (cur : string)
    : list string :=
  match s with
  | EmptyString => [String.rev cur]
  | String c r =>
      match skip with
      | S k => split_from r k cur
      | O =>
          match match_sep s with
          | Some (S k) => String.rev cur :: split_from r k EmptyString
          | _ => split_from r 0 (String c cur)
          end
      end
  end.

Definition split_comma (s : string) : list string :=
  split_from s 0 EmptyString.

End Js.

Import Js.

(** ** Errors, completions and loops *)

Inductive error : Type :=
| UndefinedFormatError
    (** [errors.InternalServerError('Format not defined in response.formats.')],
        thrown by [throwUndefinedFormatError] *)
| TypeError
    (** property read or method call on a value that has none *).

(** How a call ends: with a value, or with an exception that unwinds the
    caller's stack. *)
Inductive outcome (A : Type) : Type :=
| Returns (a : A)
| Throws (e : error).
Arguments Returns {A} a.
Arguments Throws {A} e.

Definition bind {A B : Type} (m : outcome A) (k : A → outcome B) : outcome B :=
  match m with
  | Returns a => k a
  | Throws e => Throws e
  end.

Notation "'let!' x ':=' m 'in' k" := (bind m (fun x => k))
  (at level 10, x name, m at level 100, k at level 200, only parsing).

(** One round of a [for] loop body over the loop's variables. *)
Inductive step (S : Type) : Type :=
| Continue (s : S)
| Break (s : S)
| Raise (e : error).
Arguments Continue {S} s.
Arguments Break {S} s.
Arguments Raise {S} e.

(** [for (i = 0, ii = xs.length; i < ii; i++) body(xs[i])]. *)
Fixpoint for_each {A S : Type} (body : A → S → step S) (xs : list A) (s : S)
    : outcome S :=
  match xs with
  | [] => Returns s
  | x :: rest =>
      match body x s with
      | Continue s' => for_each body rest s'
      | Break s' => Returns s'
      | Raise e => Throws e
      end
  end.

(** ** Data of the responder *)

(** The functions found in a strategy table: the two built-in strategy
    modules, handlers written by the user, and the functions every plain
    object inherits from [Object.prototype]. *)
Inductive handler : Type :=
| HtmlStrategy
| ApiStrategy
| UserStrategy (name : string)
| Inherited (name : string).

(** A property of a strategies object: [typeof] tells functions from the
    rest. *)
Inductive strategy : Type :=
| Function (h : handler)
| NotFunction (v : value).

(** Own enumerable properties, in [for ... in] order. *)
Definition strategy_map : Type := list (string * strategy).

Definition keys (strategies : strategy_map) : list string := strategies.*1.

(** The own property [k] of a strategies object. *)
Fixpoint own_prop (strategies : strategy_map) (k : string)
    : option strategy :=
  match strategies with
  | [] => None
  | (k', v) :: rest => if String.eqb k' k then Some v else own_prop rest k
  end.

(** The names under which [Object.prototype] holds a function. *)
Definition objectPrototypeFunctions : list string :=
  [ "constructor"; "toString"; "toLocaleString"; "valueOf";
    "hasOwnProperty"; "isPrototypeOf"; "propertyIsEnumerable";
    "__defineGetter__"; "__defineSetter__";
    "__lookupGetter__"; "__lookupSetter__" ].

(** [strategies[k]] on a plain object, as far as
    [typeof ... === 'function'] can tell: the own property if there is
    one, else the function inherited from [Object.prototype] under that
    name; [None] when there is neither (the inherited accessor
    [__proto__] yields an object, which is no function). *)
Definition prop (strategies : strategy_map) (k : string) : option strategy :=
  match own_prop strategies k with
  | Some v => Some v
  | None =>
      if bool_decide (k ∈ objectPrototypeFunctions)
      then Some (Function (Inherited k))
      else None
  end.

(** What the responder reads of its controller. *)
Record controller : Type := {
  params_format : option string;   (** [controller.params.format] *)
  headers_accept : option string;  (** [controller.request.headers.accept] *)
  respondsWith : list string;      (** [controller.respondsWith] *)
  completed : bool                 (** [controller.completed] *)
}.

(** The object [negotiate] returns; either local may still be
    [undefined] as far as the types go. *)
Record negotiated : Type := {
  format : option string;
  contentType : option string
}.

(** What [respondWith] is given to respond with. *)
#[warnings="-register-all"] Inductive content : Type :=
| CPrim (v : value)
| CObject (props : gmap string value)
| CArray (elems : list content).

(** The default strategies of [respondWith]. *)
Definition respondWithStrategies : strategy_map :=
  [ ("html", Function HtmlStrategy);
    ("json", Function ApiStrategy);
    ("xml", Function ApiStrategy);
    ("js", Function ApiStrategy);
    ("txt", Function ApiStrategy) ].

Section Responder.

(** Opaque values handed through: the caller's callback and the
    formatted body. *)
Context {Callback Body : Type}.

(** The collaborators of [lib/response]. *)
Variable getContentTypeForFormat : string → option string.
Variable matchAcceptHeaderContentType : list string → string → option string.

(** *** negotiate *)

(** Body of the loop over the keys of [strategies]. *)
Definition push_key (acceptFormats : list string) (key : string)
    : list string :=
  if bool_decide (key ∈ acceptFormats) then acceptFormats
  else acceptFormats ++ [key].

(** The clone of [this.formats] with the strategies' keys copied in. *)
Definition acceptFormats (this : controller) (strategies : strategy_map)
    : list string :=
  foldl push_key (respondsWith this) (keys strategies).

(** The entries of the Accept header. *)
Definition accepts (this : controller) : list string :=
  match when_truthy (headers_accept this) with
  | Some a => split_comma a
  | None => ["*/*"]
  end.

(** The candidate formats. *)
Definition types (this : controller) (frmt : option string)
    (acceptFormats : list string) : list string :=
  match when_truthy frmt with
  | Some frmt => [frmt]
  | None =>
      match when_truthy (params_format this) with
      | Some f => if bool_decide (f ∈ acceptFormats) then [f] else []
      | None => acceptFormats
      end
  end.

(** Body of the loop that looks for the wildcard. *)
Definition wildcard_body (entry : string) (wildcard : bool) : step bool :=
  let accept := before_semicolon entry in
  if String.eqb accept "*/*" then Break true else Continue wildcard.

(** Body of the loop over the candidates. *)
Definition match_body (accepts : list string) (t : string) (_ : negotiated)
    : step negotiated :=
  let match_ := matchAcceptHeaderContentType accepts t in
  if truthy_str match_
  then Break {| format := Some t; contentType := match_ |}
  else Raise UndefinedFormatError.

(** From [if (types.length)] to the [return]. *)
Definition negotiate_types (accepts types : list string)
    : outcome negotiated :=
  match types with
  | [] => Throws UndefinedFormatError
  | t :: _ =>
      let! wildcard := for_each wildcard_body accepts false in
      if wildcard : bool then
        let contentType := getContentTypeForFormat t in
        if truthy_str contentType
        then Returns {| format := Some t; contentType := contentType |}
        else Throws UndefinedFormatError
      else
        for_each (match_body accepts) types
          {| format := None; contentType := None |}
  end.

Definition negotiate (this : controller) (frmt : option string)
    (strategies : option strategy_map) : outcome negotiated :=
  let strategies := default [] strategies in
  let acceptFormats := acceptFormats this strategies in
  let accepts := accepts this in
  let types := types this frmt acceptFormats in
  negotiate_types accepts types.

(** *** respond, respondTo, respondWith *)

(** The call [doResponse(statusCode, headers, body, cb)]. *)
Inductive write_call : Type :=
| DoResponse (statusCode : value) (headers : gmap string value)
    (body : Body) (cb : Callback).

(** The call a method ends with. *)
Inductive action : Type :=
| Nothing
| CallStrategy (h : handler) (content : content)
    (opts : gmap string value) (cb : Callback)
| FormatContent (format : value) (content : content)
    (opts : gmap string value) (formatCb : Body → write_call).

Definition respond (content : content) (options : option (gmap string value))
    (cb : Callback) : action :=
  let opts := default ∅ options in
  let formatCb := fun formattedContent =>
    DoResponse (or_else (get opts "statusCode") (VNumber 200))
      {[ "Content-Type" := get opts "contentType" ]}
      formattedContent cb in
  FormatContent (get opts "format") content opts formatCb.

(** What follows when [formatContent] hands [body] to the callback it
    was given. *)
Definition formatted (a : action) (body : Body) : option write_call :=
  match a with
  | FormatContent _ _ _ formatCb => Some (formatCb body)
  | _ => None
  end.

(** The options a handler or [formatContent] is called with. *)
Definition action_opts (a : action) : option (gmap string value) :=
  match a with
  | Nothing => None
  | CallStrategy _ _ opts _ => Some opts
  | FormatContent _ _ opts _ => Some opts
  end.

(** The object literal [{format: ..., contentType: ...}]. *)
Definition negotiated_props (n : negotiated) : gmap string value :=
  {[ "format" := of_str (format n);
     "contentType" := of_str (contentType n) ]}.

(** The property key a value is turned into by [strategies[...]]. *)
Definition prop_key (o : option string) : string :=
  default "undefined" o.

Definition respondTo (this : controller) (content : content)
    (strategies : option strategy_map) (opts : option (gmap string value))
    (cb : Callback) : outcome action :=
  let strategies := default [] strategies in
  let opts := default ∅ opts in
  let! negotiated := negotiate this None (Some strategies) in
  let opts := mixin ∅ [opts; negotiated_props negotiated] in
  if completed this then Returns Nothing
  else
    match prop strategies (prop_key (format negotiated)) with
    | Some (Function h) => Returns (CallStrategy h content opts cb)
    | _ => Returns (respond content (Some opts) cb)
    end.

(** [x.type.toLowerCase()]. Only a plain object whose [type] is a
    string has the method; any other receiver makes the read or the
    call throw. *)
Definition type_toLowerCase (x : content) : outcome value :=
  match x with
  | CObject props =>
      match get props "type" with
      | VString s => Returns (VString (toLowerCase s))
      | _ => Throws TypeError
      end
  | _ => Throws TypeError
  end.

(** The local [type] of [respondWith] before the call of [respondTo]. *)
Definition respondWith_type (content : content) (opts : gmap string value)
    : outcome value :=
  let! type :=
    match content with
    | CArray elems =>
        match elems with
        | first :: _ => type_toLowerCase first
        | [] => Returns VNull
        end
    | _ => type_toLowerCase content
    end in
  Returns (if truthy (get opts "type") then get opts "type" else type).

Definition respondWith (this : controller) (content : content)
    (opts : option (gmap string value)) (cb : Callback) : outcome action :=
  let opts := default ∅ opts in
  let! type := respondWith_type content opts in
  let opts := <[ "type" := type ]> opts in
  respondTo this content (Some respondWithStrategies) (Some opts) cb.

End Responder.

(** ** Collaborators used to run the responder on concrete requests *)

(** Modelled from the spec: the registry behind [getContentTypeForFormat]
    of [lib/response], which maps a format token to a MIME content-type
    string, or to nothing. The table is the usual one for the five
    formats of [respondWithStrategies]; only concrete runs use it. *)
Definition sampleContentType (f : string) : option string :=
  if String.eqb f "html" then Some "text/html"
  else if String.eqb f "json" then Some "application/json"
  else if String.eqb f "xml" then Some "application/xml"
  else if String.eqb f "js" then Some "application/javascript"
  else if String.eqb f "txt" then Some "text/plain"
  else None.

(** Modelled from the spec: [matchAcceptHeaderContentType] of
    [lib/response], which decides whether any Accept entry's media type
    matches the content type registered for the candidate format and
    yields the matched content type, or nothing; the media type of an
    entry is the entry without its [;]-parameters. *)
Definition specMatch (resolve : string → option string)
    (accepts : list string) (f : string) : option string :=
  match resolve f with
  | Some ct =>
      if existsb (fun e => String.eqb (before_semicolon e) ct) accepts
      then Some ct else None
  | None => None
  end.

(** ** Predicates and concrete data used in the statements *)

(** An entry whose media type is the wildcard. *)
Definition is_wildcard (entry : string) : Prop :=
  before_semicolon entry = "*/*".

#[global] Instance is_wildcard_dec entry : Decision (is_wildcard entry).
Proof. unfold is_wildcard. apply _. Defined.

(** A header written as entries joined by commas with optional
    whitespace around them. *)
Fixpoint all_ws (s : string) : bool :=
  match s with
  | EmptyString => true
  | String c r => is_space c && all_ws r
  end.

Fixpoint no_comma (s : string) : bool :=
  match s with
  | EmptyString => true
  | String c r => negb (Ascii.eqb c ",") && no_comma r
  end.

Definition starts_ws (s : string) : bool :=
  match s with
  | EmptyString => false
  | String c _ => is_space c
  end.

Fixpoint ends_ws (s : string) : bool :=
  match s with
  | EmptyString => false
  | String c EmptyString => is_space c
  | String _ r => ends_ws r
  end.

(** An entry: not empty, no comma inside, no whitespace at either end. *)
Definition is_entry (e : string) : bool :=
  negb (String.eqb e "") && no_comma e && negb (starts_ws e)
  && negb (ends_ws e).

(** A separator is a comma between two runs of whitespace, and a
    header is a first entry followed by separators and entries. *)
Record more : Type := {
  ws_before : string;
  ws_after : string;
  entry : string
}.

Definition is_more (m : more) : bool :=
  all_ws (ws_before m) && all_ws (ws_after m) && is_entry (entry m).

Fixpoint join (e : string) (rest : list more) : string :=
  e +:+ match rest with
        | [] => EmptyString
        | m :: rest' =>
            ws_before m +:+ String "," (ws_after m +:+ join (entry m) rest')
        end.

(** *** Concrete requests *)

(** A request with the given Accept header and [params.format], to a
    controller that responds with [formats]. *)
Definition request (accept param : option string) (formats : list string)
    : controller :=
  {| params_format := param;
     headers_accept := accept;
     respondsWith := formats;
     completed := false |}.

Definition sampleNegotiate : controller → option string →
    option strategy_map → outcome negotiated :=
  negotiate sampleContentType (specMatch sampleContentType).

(** Callbacks and bodies are named by strings in the concrete runs. *)
Definition sampleRespondTo : controller → content → option strategy_map →
    option (gmap string value) → string → outcome (@action string string) :=
  respondTo sampleContentType (specMatch sampleContentType).

Definition sampleRespondWith : controller → content →
    option (gmap string value) → string → outcome (@action string string) :=
  respondWith sampleContentType (specMatch sampleContentType).

Definition widget : content := CObject {[ "type" := VString "Widget" ]}.

(** Strategies of a caller: a function for pdf, and an entry for json
    that is not a function. *)
Definition sampleStrategies : strategy_map :=
  [ ("json", NotFunction VNull);
    ("pdf", Function (UserStrategy "pdf")) ].

(** Modelled from the spec: a registry that also knows the format pdf
    of [sampleStrategies]. Only concrete runs use it. *)
Definition pdfContentType (f : string) : option string :=
  if String.eqb f "pdf" then Some "application/pdf" else sampleContentType f.



Ltac decide_by_computation :=
  apply (bool_decide_unpack _); vm_compute; exact I.

(** ** The JavaScript fragment on examples *)

Example split_plain :
  split_comma "text/html,application/json" = ["text/html"; "application/json"].
Proof. reflexivity. Qed.

Example split_spaces :
  split_comma "text/html ,  application/json;q=0.9 ,*/*"
  = ["text/html"; "application/json;q=0.9"; "*/*"].
Proof. reflexivity. Qed.

Example split_trailing : split_comma " a b,," = [" a b"; ""; ""].
Proof. reflexivity. Qed.

Example lower_widget : toLowerCase "Widget" = "widget".
Proof. reflexivity. Qed.

(** ** Properties of the loops and of the candidate formats *)

Lemma string_eqb_decide (a b : string) : String.eqb a b = bool_decide (a = b).
Proof.
  destruct (String.eqb_spec a b) as [->|Hne].
  - by rewrite bool_decide_eq_true_2.
  - by rewrite bool_decide_eq_false_2.
Qed.

Lemma truthy_str_Some (o : option string) :
  truthy_str o = true ↔ ∃ s, o = Some s ∧ s ≠ "".
Proof.
  destruct o as [s|]; simpl.
  - rewrite string_eqb_decide, negb_true_iff, bool_decide_eq_false.
    split; [eauto | by intros (? & [= <-] & ?)].
  - split; [done | by intros (? & ? & _)].
Qed.

Lemma when_truthy_Some (o : option string) (s : string) :
  when_truthy o = Some s ↔ o = Some s ∧ s ≠ "".
Proof.
  unfold when_truthy. destruct o as [s'|]; [|by split; [|intros []]].
  destruct (truthy_str (Some s')) eqn:E.
  - apply truthy_str_Some in E as (? & [= <-] & ?).
    split; [by intros [= <-] | by intros [[= <-] _]].
  - split; [done|]. intros [[= ->] Hne].
    assert (truthy_str (Some s) = true) by (apply truthy_str_Some; eauto).
    congruence.
Qed.

Lemma when_truthy_None (o : option string) :
  when_truthy o = None ↔ o = None ∨ o = Some "".
Proof.
  destruct o as [s|]; unfold when_truthy; simpl; [|by split; [left|]].
  rewrite string_eqb_decide. case_bool_decide as E; simpl.
  - subst s. split; [by right | done].
  - split; [done | intros [|[= ->]]; done].
Qed.

(** The wildcard loop stops at the first wildcard entry and otherwise
    leaves the flag as it was. *)
Lemma for_each_wildcard (accepts : list string) (w : bool) :
  for_each wildcard_body accepts w
  = Returns (if decide (Exists is_wildcard accepts) then true else w).
Proof.
  induction accepts as [|e rest IH]; cbn [for_each].
  - destruct (decide (Exists is_wildcard [])) as [H|H];
      [by apply Exists_nil in H | done].
  - unfold wildcard_body at 1. rewrite string_eqb_decide.
    case_bool_decide as He.
    + destruct (decide (Exists is_wildcard (e :: rest))) as [H|H]; [done|].
      exfalso. apply H. by left.
    + rewrite IH.
      destruct (decide (Exists is_wildcard rest)) as [H|H],
               (decide (Exists is_wildcard (e :: rest))) as [H'|H'];
        try done.
      * exfalso. apply H'. by right.
      * exfalso. apply Exists_cons in H' as [?|?]; done.
Qed.

(** The loop over the candidates ends in its first round. *)
Lemma for_each_match (matcher : list string → string → option string)
    (accepts : list string) (t : string) (rest : list string) (v : negotiated) :
  for_each (match_body matcher accepts) (t :: rest) v
  = if truthy_str (matcher accepts t)
    then Returns {| format := Some t; contentType := matcher accepts t |}
    else Throws UndefinedFormatError.
Proof. simpl. unfold match_body. by destruct (truthy_str _). Qed.

(** Membership in the merged formats. *)
Lemma elem_of_foldl_push_key (ks fs : list string) (f : string) :
  f ∈ foldl push_key fs ks ↔ f ∈ fs ∨ f ∈ ks.
Proof.
  revert fs. induction ks as [|k ks IH]; intros fs; simpl.
  - set_solver.
  - rewrite IH. unfold push_key. case_bool_decide; set_solver.
Qed.

Lemma elem_of_acceptFormats (this : controller) (strategies : strategy_map)
    (f : string) :
  f ∈ acceptFormats this strategies
  ↔ f ∈ respondsWith this ∨ f ∈ keys strategies.
Proof. apply elem_of_foldl_push_key. Qed.

(** The merge appends: the controller's formats stay in front. *)
Lemma foldl_push_key_prefix (ks fs : list string) :
  ∃ new, foldl push_key fs ks = fs ++ new.
Proof.
  revert fs. induction ks as [|k ks IH]; intros fs; simpl.
  - exists []. by rewrite app_nil_r.
  - unfold push_key at 2. case_bool_decide; [done|].
    destruct (IH (fs ++ [k])) as [new ->]. exists (k :: new).
    by rewrite <- app_assoc.
Qed.

(** ** Negotiation *)

Section Negotiation.

Variable resolve : string → option string.
Variable matcher : list string → string → option string.

(** With a wildcard among the entries the first candidate is resolved. *)
Lemma negotiate_types_wildcard (accepts : list string) (t : string)
    (rest : list string) :
  Exists is_wildcard accepts →
  negotiate_types resolve matcher accepts (t :: rest)
  = if truthy_str (resolve t)
    then Returns {| format := Some t; contentType := resolve t |}
    else Throws UndefinedFormatError.
Proof.
  intros Hw. unfold negotiate_types. rewrite for_each_wildcard.
  by rewrite decide_True.
Qed.

(** Without one the first candidate is matched. *)
Lemma negotiate_types_no_wildcard (accepts : list string) (t : string)
    (rest : list string) :
  ¬ Exists is_wildcard accepts →
  negotiate_types resolve matcher accepts (t :: rest)
  = if truthy_str (matcher accepts t)
    then Returns {| format := Some t; contentType := matcher accepts t |}
    else Throws UndefinedFormatError.
Proof.
  intros Hw. unfold negotiate_types. rewrite for_each_wildcard.
  rewrite decide_False by done. cbn [bind]. apply for_each_match.
Qed.

(** Whatever [negotiate_types] returns carries the first candidate and
    a non-empty content type. *)
Lemma negotiate_types_Returns (accepts types : list string) (r : negotiated) :
  negotiate_types resolve matcher accepts types = Returns r →
  ∃ t rest ct,
    types = t :: rest ∧ r = {| format := Some t; contentType := Some ct |}
    ∧ ct ≠ ""
    ∧ (if decide (Exists is_wildcard accepts)
       then resolve t = Some ct else matcher accepts t = Some ct).
Proof.
  destruct types as [|t rest]; [done|]. intros Hr. exists t, rest.
  destruct (decide (Exists is_wildcard accepts)) as [Hw|Hw].
  - rewrite negotiate_types_wildcard in Hr by done.
    destruct (truthy_str (resolve t)) eqn:E; [|done].
    apply truthy_str_Some in E as (ct & E & Hne). exists ct.
    injection Hr as <-. by rewrite E.
  - rewrite negotiate_types_no_wildcard in Hr by done.
    destruct (truthy_str (matcher accepts t)) eqn:E; [|done].
    apply truthy_str_Some in E as (ct & E & Hne). exists ct.
    injection Hr as <-. by rewrite E.
Qed.

(** C1. On the path without a wildcard (some candidate, no Accept entry
    whose media type is [*/*]) only the first candidate is examined:
    if the matcher finds a content type for it, that candidate and that
    content type are the result; if it finds none, negotiation fails
    with UndefinedFormatError there, whatever the later candidates are.
    In particular, with Accept "application/json", formats html and
    json and no hint, a matcher that finds nothing for html makes the
    negotiation fail, json being never tried. *)
Theorem C1_unmatched_candidate_fails :
  (∀ (this : controller) (frmt : option string)
     (strategies : option strategy_map) (t : string) (rest : list string),
     types this frmt (acceptFormats this (default [] strategies)) = t :: rest →
     ¬ Exists is_wildcard (accepts this) →
     (∀ m, matcher (accepts this) t = Some m → m ≠ "" →
        negotiate resolve matcher this frmt strategies
        = Returns {| format := Some t; contentType := Some m |})
     ∧ (truthy_str (matcher (accepts this) t) = false →
        negotiate resolve matcher this frmt strategies
        = Throws UndefinedFormatError))
  ∧ (∀ done : bool,
       truthy_str (matcher ["application/json"] "html") = false →
       negotiate resolve matcher
         {| params_format := None;
            headers_accept := Some "application/json";
            respondsWith := ["html"; "json"];
            completed := done |} None None
       = Throws UndefinedFormatError).
Proof.
  assert (∀ this frmt strategies t rest,
    types this frmt (acceptFormats this (default [] strategies)) = t :: rest →
    ¬ Exists is_wildcard (accepts this) →
    negotiate resolve matcher this frmt strategies
    = if truthy_str (matcher (accepts this) t)
      then Returns {| format := Some t;
                      contentType := matcher (accepts this) t |}
      else Throws UndefinedFormatError) as Hfirst.
  { intros this frmt strategies t rest Ht Hw. unfold negotiate.
    rewrite Ht. by apply negotiate_types_no_wildcard. }
  split.
  - intros this frmt strategies t rest Ht Hw. split.
    + intros m Hm Hne. rewrite (Hfirst _ _ _ _ _ Ht Hw), Hm.
      by rewrite (proj2 (truthy_str_Some (Some m))) by eauto.
    + intros Hm. by rewrite (Hfirst _ _ _ _ _ Ht Hw), Hm.
  - intros done Hm.
    etrans.
    { apply (Hfirst _ None None "html" ["json"]); [reflexivity|].
      change (accepts _) with ["application/json"].
      rewrite Exists_cons, Exists_nil. by intros [?|?]. }
    change (accepts _) with ["application/json"]. by rewrite Hm.
Qed.

(** An absent header, or a wildcard among the entries of a present
    one, puts a wildcard among [accepts]. *)
Lemma accepts_wildcard (this : controller) :
  headers_accept this = None
  ∨ (∃ a, headers_accept this = Some a
          ∧ Exists is_wildcard (split_comma a)) →
  Exists is_wildcard (accepts this).
Proof.
  unfold accepts. intros [->|(a & -> & Hw)]; [by left|].
  destruct (when_truthy (Some a)) as [a'|] eqn:E; [|by left].
  by apply when_truthy_Some in E as [[= <-] _].
Qed.

(** Without hints the candidates are the merged formats, which start
    with the controller's own. *)
Lemma types_no_hint (this : controller) (frmt : option string)
    (strategies : strategy_map) :
  when_truthy frmt = None → when_truthy (params_format this) = None →
  ∃ new, types this frmt (acceptFormats this strategies)
         = respondsWith this ++ new.
Proof.
  intros Hf Hp. unfold types. rewrite Hf, Hp.
  apply foldl_push_key_prefix.
Qed.

(** C2. For a non-empty candidate list, when the Accept header is
    absent or some entry of it has the media type [*/*], negotiation
    returns the first candidate with the content type the resolver
    gives for it, provided the resolver gives one. With non-empty
    [respondsWith] and no hint that first candidate is
    [respondsWith[0]]; so Accept "application/json, */*" with formats
    html and json yields html. *)
Theorem C2_wildcard_first_candidate :
  (∀ (this : controller) (frmt : option string)
     (strategies : option strategy_map) (t : string) (rest : list string),
     types this frmt (acceptFormats this (default [] strategies)) = t :: rest →
     headers_accept this = None
     ∨ (∃ a, headers_accept this = Some a
             ∧ Exists is_wildcard (split_comma a)) →
     truthy_str (resolve t) = true →
     negotiate resolve matcher this frmt strategies
     = Returns {| format := Some t; contentType := resolve t |})
  ∧ (∀ (this : controller) (frmt : option string)
       (strategies : option strategy_map) (f : string) (rest : list string),
       respondsWith this = f :: rest →
       when_truthy frmt = None → when_truthy (params_format this) = None →
       head (types this frmt (acceptFormats this (default [] strategies)))
       = Some f)
  ∧ (∀ done : bool,
       truthy_str (resolve "html") = true →
       negotiate resolve matcher
         {| params_format := None;
            headers_accept := Some "application/json, */*";
            respondsWith := ["html"; "json"];
            completed := done |} None None
       = Returns {| format := Some "html"; contentType := resolve "html" |}).
Proof.
  assert (∀ this frmt strategies t rest,
    types this frmt (acceptFormats this (default [] strategies)) = t :: rest →
    Exists is_wildcard (accepts this) →
    truthy_str (resolve t) = true →
    negotiate resolve matcher this frmt strategies
    = Returns {| format := Some t; contentType := resolve t |}) as Hfirst.
  { intros this frmt strategies t rest Ht Hw Hr. unfold negotiate.
    rewrite Ht, negotiate_types_wildcard by done. by rewrite Hr. }
  split; [|split].
  - intros this frmt strategies t rest Ht Hw Hr.
    eauto using accepts_wildcard.
  - intros this frmt strategies f rest Hf Hfrmt Hp.
    destruct (types_no_hint this frmt (default [] strategies) Hfrmt Hp)
      as [new ->].
    by rewrite Hf.
  - intros done Hr.
    apply (Hfirst _ None None "html" ["json"]); [reflexivity| |done].
    change (accepts _) with ["application/json"; "*/*"].
    right. by left.
Qed.

(** C10. Whenever negotiation returns, the format returned is the first
    element of the candidate list; and the candidates after the first
    have no influence on how negotiation ends. *)
Theorem C10_first_candidate_only :
  (∀ (this : controller) (frmt : option string)
     (strategies : option strategy_map) (r : negotiated),
     negotiate resolve matcher this frmt strategies = Returns r →
     ∃ t, head (types this frmt (acceptFormats this (default [] strategies)))
          = Some t
          ∧ format r = Some t)
  ∧ (∀ (accepts : list string) (t : string) (rest rest' : list string),
       negotiate_types resolve matcher accepts (t :: rest)
       = negotiate_types resolve matcher accepts (t :: rest')).
Proof.
  split.
  - intros this frmt strategies r Hr. unfold negotiate in Hr.
    apply negotiate_types_Returns in Hr as (t & rest & ct & -> & -> & _).
    by exists t.
  - intros accepts t rest rest'.
    destruct (decide (Exists is_wildcard accepts)).
    + by rewrite !negotiate_types_wildcard.
    + by rewrite !negotiate_types_no_wildcard.
Qed.

(** C5 (amended). When [frmt] is not given (absent or empty) and
    [params.format] is a non-empty string: if it is among the
    controller's formats or the strategies' keys, the candidates are
    exactly that format; if it is not, there is no candidate and
    negotiation throws UndefinedFormatError, the merged formats being
    not fallen back on. *)
Theorem C5_param_format_candidates
    (this : controller) (frmt : option string)
    (strategies : option strategy_map) (f : string) :
  when_truthy frmt = None → params_format this = Some f → f ≠ "" →
  (f ∈ respondsWith this ∨ f ∈ keys (default [] strategies) →
   types this frmt (acceptFormats this (default [] strategies)) = [f])
  ∧ (¬ (f ∈ respondsWith this ∨ f ∈ keys (default [] strategies)) →
     types this frmt (acceptFormats this (default [] strategies)) = []
     ∧ negotiate resolve matcher this frmt strategies
       = Throws UndefinedFormatError).
Proof.
  intros Hfrmt Hp Hne.
  assert (when_truthy (params_format this) = Some f) as Hf
    by (by apply when_truthy_Some).
  rewrite <- elem_of_acceptFormats. unfold negotiate, types.
  rewrite Hfrmt, Hf. split; intros Hin.
  - by rewrite bool_decide_eq_true_2.
  - by rewrite bool_decide_eq_false_2.
Qed.

(** C6 (amended). A non-empty [frmt] passed to [negotiate] is the only
    candidate, whatever the controller's formats, the strategies' keys
    and [params.format] are. *)
Theorem C6_requested_format_sole_candidate
    (this : controller) (frmt : string) (strategies : option strategy_map) :
  frmt ≠ "" →
  types this (Some frmt) (acceptFormats this (default [] strategies))
  = [frmt]
  ∧ negotiate resolve matcher this (Some frmt) strategies
    = negotiate_types resolve matcher (accepts this) [frmt].
Proof.
  intros Hne.
  assert (when_truthy (Some frmt) = Some frmt) as Hf
    by (by apply when_truthy_Some).
  unfold negotiate, types. by rewrite Hf.
Qed.

End Negotiation.

(** ** Dispatch *)

Section Dispatch.

Context {Callback Body : Type}.
Variable resolve : string → option string.
Variable matcher : list string → string → option string.

Implicit Types (cb : Callback) (body : Body) (a : @action Callback Body).

(** C8. In [respondTo], once negotiation has returned, a true
    [completed] flag makes the method return without calling a strategy
    or [respond]; a strategy or [respond] is called only when the flag
    is false. *)
Theorem C8_completed_no_dispatch
    (this : controller) (content : content)
    (strategies : option strategy_map) (opts : option (gmap string value))
    cb :
  (completed this = true →
     (∀ n, negotiate resolve matcher this None (Some (default [] strategies))
           = Returns n →
           respondTo (Body := Body) resolve matcher this content strategies opts cb
           = Returns Nothing)
     ∧ (∀ a, respondTo (Body := Body) resolve matcher this content strategies opts cb
             = Returns a → a = Nothing))
  ∧ (∀ a, respondTo (Body := Body) resolve matcher this content strategies opts cb
          = Returns a → a ≠ Nothing → completed this = false).
Proof.
  unfold respondTo.
  destruct (negotiate resolve matcher this None
              (Some (default [] strategies))) as [n|e]; cbn [bind].
  - destruct (completed this); (split; [intros ?; split|]); try done.
    + by intros a [= <-].
    + by intros a [= <-] ?.
  - split; [intros ?; split|]; done.
Qed.

(** C9 (amended). [respond] hands [formatContent] a callback which, for
    any formatted body, calls [doResponse] with the status
    [options.statusCode] when that is truthy and 200 when it is absent
    or falsy, with the headers [{Content-Type: options.contentType}]
    and nothing else, with that body, and with the caller's callback
    unchanged. *)
Theorem C9_respond_writes
    (content : content) (options : option (gmap string value)) cb :
  let opts := default ∅ options in
  ∃ formatCb,
    respond content options cb
    = FormatContent (get opts "format") content opts formatCb
    ∧ ∀ body,
        formatted (respond content options cb) body = Some (formatCb body)
        ∧ formatCb body
          = DoResponse
              (if truthy (get opts "statusCode")
               then get opts "statusCode" else VNumber 200)
              {[ "Content-Type" := get opts "contentType" ]}
              body cb.
Proof. intros opts. eexists. split; [reflexivity|]. by intros body. Qed.

(** The options [respondTo] passes on are the caller's, but for the
    two properties negotiation fills in. *)
Lemma mixin_negotiated_other (opts : gmap string value) (n : negotiated)
    (k : string) :
  k ≠ "format" → k ≠ "contentType" →
  get (mixin ∅ [opts; negotiated_props n]) k = get opts k.
Proof.
  intros Hf Hc. unfold get, mixin, negotiated_props; cbn [foldl].
  rewrite lookup_union_r.
  - by rewrite lookup_union_l by apply lookup_empty.
  - rewrite lookup_insert_ne by done.
    by rewrite lookup_singleton_ne.
Qed.

Lemma respondTo_opts (this : controller) (c : content)
    (strategies : option strategy_map) (opts : option (gmap string value))
    cb a (o : gmap string value) (k : string) :
  respondTo (Body := Body) resolve matcher this c strategies opts cb = Returns a →
  action_opts a = Some o →
  k ≠ "format" → k ≠ "contentType" →
  get o k = get (default ∅ opts) k.
Proof.
  unfold respondTo. intros Hr Ho Hf Hc.
  destruct (negotiate _ _ _ _ _) as [n|e]; cbn [bind] in Hr; [|done].
  destruct (completed this); [by injection Hr as <-|].
  destruct (prop _ _) as [[h|v]|]; injection Hr as <-;
    cbn in Ho; injection Ho as <-; by apply mixin_negotiated_other.
Qed.

(** C3 (amended). For content that is an empty array, an array whose
    first element is an object with a string [type], or a non-array
    object with a string [type]: a truthy [options.type] is the type
    used; otherwise the type is the lower-cased [type] of the first
    element, respectively of the object, and [null] for the empty
    array. The type is stored in [options.type] before [respondTo] is
    called, so whatever is dispatched to receives it there. *)
Theorem C3_type_inference :
  (∀ opts : gmap string value,
     respondWith_type (CArray []) opts
     = Returns (if truthy (get opts "type") then get opts "type"
                else VNull))
  ∧ (∀ (props opts : gmap string value) (rest : list content) (s : string),
       get props "type" = VString s →
       respondWith_type (CArray (CObject props :: rest)) opts
       = Returns (if truthy (get opts "type") then get opts "type"
                  else VString (toLowerCase s)))
  ∧ (∀ (props opts : gmap string value) (s : string),
       get props "type" = VString s →
       respondWith_type (CObject props) opts
       = Returns (if truthy (get opts "type") then get opts "type"
                  else VString (toLowerCase s)))
  ∧ (∀ (this : controller) (c : content)
       (opts : option (gmap string value)) cb a (o : gmap string value),
       respondWith (Body := Body) resolve matcher this c opts cb = Returns a →
       action_opts a = Some o →
       respondWith_type c (default ∅ opts) = Returns (get o "type")).
Proof.
  split; [done|]. split; [|split].
  - intros props opts rest s Hs. unfold respondWith_type; simpl.
    by rewrite Hs.
  - intros props opts s Hs. unfold respondWith_type; simpl.
    by rewrite Hs.
  - intros this c opts cb a o Hr Ho. unfold respondWith in Hr.
    destruct (respondWith_type c (default ∅ opts)) as [type|e];
      cbn [bind] in Hr; [|done].
    rewrite (respondTo_opts _ _ _ _ _ _ _ "type" Hr Ho) by done.
    change (default ∅ (Some (<["type":=type]> (default ∅ opts))))
      with (<["type":=type]> (default ∅ opts)).
    unfold get. by rewrite lookup_insert_eq.
Qed.

End Dispatch.

(** ** Splitting the Accept header *)

#[local] Arguments String.append !_ _ / : simpl nomatch.

Lemma app_assoc_string (a b c : string) : (a +:+ b) +:+ c = a +:+ b +:+ c.
Proof. induction a as [|x a IH]; simpl; [done | by f_equal]. Qed.

Lemma rev_app_rev_app (s1 s2 s3 : string) :
  String.rev_app (String.rev_app s1 s2) s3 = String.rev_app s2 (s1 +:+ s3).
Proof.
  revert s2 s3. induction s1 as [|c s1 IH]; intros s2 s3; simpl; [done|].
  apply IH.
Qed.

Lemma rev_rev_app (s : string) : String.rev (String.rev_app s "") = s.
Proof.
  unfold String.rev. rewrite rev_app_rev_app. simpl.
  induction s as [|c s IH]; simpl; [done | by f_equal].
Qed.

Lemma span_ws_app (w s : string) :
  all_ws w = true → span_ws (w +:+ s) = String.length w + span_ws s.
Proof.
  induction w as [|c w IH]; simpl; [done|].
  intros [Hc Hw]%andb_true_iff. by rewrite Hc, IH.
Qed.

Lemma drop_ws_app (w s : string) :
  all_ws w = true → drop_ws (w +:+ s) = drop_ws s.
Proof.
  induction w as [|c w IH]; simpl; [done|].
  intros [Hc Hw]%andb_true_iff. by rewrite Hc, IH.
Qed.

Lemma span_ws_starts (s : string) : starts_ws s = false → span_ws s = 0.
Proof. destruct s as [|c s]; simpl; [done | by intros ->]. Qed.

Lemma starts_ws_app (e s : string) :
  e ≠ "" → starts_ws (e +:+ s) = starts_ws e.
Proof. by destruct e. Qed.

(** The separator is matched where it starts, in full. *)
Lemma match_sep_separator (w1 w2 t : string) :
  all_ws w1 = true → all_ws w2 = true → starts_ws t = false →
  match_sep (w1 +:+ String "," (w2 +:+ t))
  = Some (String.length w1 + 1 + String.length w2).
Proof.
  intros H1 H2 Ht. unfold match_sep.
  rewrite drop_ws_app by done. simpl.
  rewrite !span_ws_app by done. simpl.
  rewrite (span_ws_starts t) by done. f_equal. lia.
Qed.

(** It is not matched inside an entry. *)
Lemma drop_ws_entry (r t : string) :
  r ≠ "" → no_comma r = true → ends_ws r = false →
  ∃ c s, drop_ws (r +:+ t) = String c s ∧ Ascii.eqb c "," = false.
Proof.
  induction r as [|c r IH]; [done|]. intros _ Hc He.
  simpl in Hc. apply andb_true_iff in Hc as [Hc Hr].
  apply negb_true_iff in Hc. simpl.
  destruct (is_space c) eqn:Hs; [|by eauto].
  destruct r as [|c' r]; [simpl in He; congruence|].
  apply IH; done.
Qed.

Lemma match_sep_entry (r t : string) :
  r ≠ "" → no_comma r = true → ends_ws r = false →
  match_sep (r +:+ t) = None.
Proof.
  intros Hr Hc He. unfold match_sep.
  destruct (drop_ws_entry r t Hr Hc He) as (c & s & -> & ->). done.
Qed.

(** Jumping over a match. *)
Lemma split_from_skip (x y cur : string) :
  split_from (x +:+ y) (String.length x) cur = split_from y 0 cur.
Proof.
  induction x as [|c x IH]; simpl; [|done].
  by destruct y.
Qed.

(** Reading an entry up to its end. *)
Lemma split_from_entry (r t cur : string) :
  no_comma r = true → ends_ws r = false →
  split_from (r +:+ t) 0 cur = split_from t 0 (String.rev_app r cur).
Proof.
  revert cur. induction r as [|c r IH]; intros cur Hc He; [done|].
  assert (no_comma r = true ∧ ends_ws r = false) as [Hc' He'].
  { simpl in Hc. apply andb_true_iff in Hc as [_ Hc]. split; [done|].
    by destruct r. }
  change (String c r +:+ t) with (String c (r +:+ t)).
  cbn [split_from].
  change (String c (r +:+ t)) with (String c r +:+ t).
  rewrite (match_sep_entry (String c r) t) by done.
  by apply IH.
Qed.

(** Splitting gives back the entries. *)
Lemma split_comma_join (e : string) (rest : list more) :
  is_entry e = true → forallb is_more rest = true →
  split_comma (join e rest) = e :: map entry rest.
Proof.
  unfold split_comma. revert e.
  induction rest as [|m rest IH]; intros e He Hrest.
  all: apply andb_true_iff in He as [He Hend];
    apply andb_true_iff in He as [He Hstart];
    apply andb_true_iff in He as [He Hcomma];
    apply negb_true_iff in Hend.
  - cbn [join]. rewrite split_from_entry by done. simpl.
    by rewrite rev_rev_app.
  - cbn [forallb] in Hrest. apply andb_true_iff in Hrest as [Hm Hrest].
    pose proof Hm as Hm'.
    apply andb_true_iff in Hm' as [Hw Hentry].
    apply andb_true_iff in Hw as [Hw1 Hw2].
    cbn [join]. rewrite split_from_entry by done.
    set (t := join (entry m) rest).
    assert (starts_ws t = false) as Ht.
    { unfold t. destruct rest; cbn [join]; rewrite starts_ws_app.
      all: apply andb_true_iff in Hentry as [Hentry _];
        apply andb_true_iff in Hentry as [Hentry Hs];
        apply andb_true_iff in Hentry as [Hentry _];
        apply negb_true_iff in Hs, Hentry; try done.
      all: intros Heq; by rewrite Heq in Hentry. }
    pose proof (match_sep_separator _ _ t Hw1 Hw2 Ht) as Hsep.
    cbn [map]. rewrite <- (IH (entry m) Hentry Hrest). fold t.
    destruct (ws_before m) as [|c w1] eqn:Ew.
    + change ("" +:+ String "," (ws_after m +:+ t))
        with (String "," (ws_after m +:+ t)) in *.
      cbn [split_from]. rewrite Hsep. cbn [String.length Nat.add].
      rewrite rev_rev_app. f_equal. apply split_from_skip.
    + change (String c w1 +:+ String "," (ws_after m +:+ t))
        with (String c (w1 +:+ String "," (ws_after m +:+ t))) in *.
      cbn [split_from]. rewrite Hsep. cbn [String.length Nat.add].
      rewrite rev_rev_app. f_equal.
      replace (String.length w1 + 1 + String.length (ws_after m))
        with (String.length (w1 +:+ String "," (ws_after m))).
      * change (String "," (ws_after m +:+ t))
          with (String "," (ws_after m) +:+ t).
        rewrite <- app_assoc_string. apply split_from_skip.
      * clear. induction w1 as [|c w1 IH]; simpl; [done|]. by rewrite IH.
Qed.

(** ** Parameters of the entries, and the content type returned *)

Lemma Exists_is_wildcard_fmap (es : list string) :
  Exists is_wildcard es ↔ "*/*" ∈ before_semicolon <$> es.
Proof.
  rewrite Exists_exists, list_elem_of_fmap. unfold is_wildcard.
  split; intros (e & ? & ?); by exists e.
Qed.

(** The wildcard test sees the media types only. *)
Lemma for_each_wildcard_media (es es' : list string) :
  before_semicolon <$> es = before_semicolon <$> es' →
  for_each wildcard_body es false = for_each wildcard_body es' false.
Proof.
  intros Heq. rewrite !for_each_wildcard. f_equal.
  destruct (decide (Exists is_wildcard es)) as [H|H],
           (decide (Exists is_wildcard es')) as [H'|H']; try done;
    rewrite !Exists_is_wildcard_fmap, Heq in *; done.
Qed.

Lemma specMatch_ignores_parameters (resolve : string → option string)
    (es es' : list string) (f : string) :
  before_semicolon <$> es = before_semicolon <$> es' →
  specMatch resolve es f = specMatch resolve es' f.
Proof.
  intros Heq. unfold specMatch. destruct (resolve f) as [ct|]; [|done].
  assert (∀ l, existsb (λ e, String.eqb (before_semicolon e) ct) l
               = existsb (λ m, String.eqb m ct) (before_semicolon <$> l))
    as Hmap by (induction l as [|?? IH]; simpl; [done | by rewrite IH]).
  by rewrite !Hmap, Heq.
Qed.

Lemma specMatch_Some (resolve : string → option string) (es : list string)
    (f ct : string) :
  specMatch resolve es f = Some ct → resolve f = Some ct.
Proof.
  unfold specMatch. destruct (resolve f) as [ct'|]; [|done].
  by destruct (existsb _ _).
Qed.

(** When the matcher only ever answers with the content type registered
    for the format, so does [negotiate]. *)
Lemma negotiate_Returns_resolves
    (resolve : string → option string)
    (matcher : list string → string → option string)
    (this : controller) (frmt : option string)
    (strategies : option strategy_map) (r : negotiated) :
  (∀ es f ct, matcher es f = Some ct → resolve f = Some ct) →
  negotiate resolve matcher this frmt strategies = Returns r →
  ∃ f ct, format r = Some f ∧ contentType r = Some ct ∧ ct ≠ ""
          ∧ resolve f = Some ct.
Proof.
  intros Hm Hr. unfold negotiate in Hr.
  apply negotiate_types_Returns in Hr as (t & rest & ct & _ & -> & Hne & Hct).
  exists t, ct. repeat split; try done.
  destruct (decide (Exists is_wildcard (accepts this))); eauto.
Qed.

Lemma before_semicolon_idemp (e : string) :
  before_semicolon (before_semicolon e) = before_semicolon e.
Proof.
  induction e as [|c e IH]; simpl; [done|].
  destruct (Ascii.eqb c ";") eqn:Hc; simpl; [done|]. by rewrite Hc, IH.
Qed.

Lemma fmap_before_semicolon_idemp (es : list string) :
  before_semicolon <$> (before_semicolon <$> es) = before_semicolon <$> es.
Proof.
  induction es as [|e es IH]; [done|].
  rewrite !fmap_cons. by rewrite before_semicolon_idemp, IH.
Qed.

(** Negotiation with a matcher that ignores the parameters of the
    entries sees their media types only. *)
Lemma negotiate_types_media
    (resolve : string → option string)
    (matcher : list string → string → option string)
    (es es' types : list string) :
  (∀ es es' f, before_semicolon <$> es = before_semicolon <$> es' →
               matcher es f = matcher es' f) →
  before_semicolon <$> es = before_semicolon <$> es' →
  negotiate_types resolve matcher es types
  = negotiate_types resolve matcher es' types.
Proof.
  intros Hm Heq. destruct types as [|t rest]; [done|].
  destruct (decide (Exists is_wildcard es)) as [H|H].
  - assert (Exists is_wildcard es')
      by (by rewrite Exists_is_wildcard_fmap, <- Heq,
               <- Exists_is_wildcard_fmap).
    by rewrite !negotiate_types_wildcard.
  - assert (¬ Exists is_wildcard es')
      by (by rewrite Exists_is_wildcard_fmap, <- Heq,
               <- Exists_is_wildcard_fmap).
    rewrite !negotiate_types_no_wildcard by done.
    by rewrite (Hm es es' t Heq).
Qed.

(** C4 (amended). A present, non-empty Accept header is split on its
    commas together with the whitespace around them. Only the part of
    each entry before its first [;] is used, for the wildcard test and,
    with the matcher of the specification, for the match against the
    candidate's content type: negotiation ends the same way on the
    entries and on the entries stripped of their parameters, hence the
    same way for any two non-empty headers whose entries have the same
    media types. *)
Theorem C4_accept_entries :
  (∀ (this : controller) (a : string),
     headers_accept this = Some a → a ≠ "" → accepts this = split_comma a)
  ∧ (∀ (e : string) (rest : list more),
       is_entry e = true → forallb is_more rest = true →
       split_comma (join e rest) = e :: map entry rest)
  ∧ (∀ es : list string,
       for_each wildcard_body es false
       = for_each wildcard_body (before_semicolon <$> es) false)
  ∧ (∀ (resolve : string → option string) (es types : list string),
       negotiate_types resolve (specMatch resolve) es types
       = negotiate_types resolve (specMatch resolve)
           (before_semicolon <$> es) types)
  ∧ (∀ (resolve : string → option string) (a a' : string)
       (param : option string) (formats : list string) (done : bool)
       (frmt : option string) (strategies : option strategy_map),
       a ≠ "" → a' ≠ "" →
       before_semicolon <$> split_comma a
       = before_semicolon <$> split_comma a' →
       negotiate resolve (specMatch resolve)
         {| params_format := param; headers_accept := Some a;
            respondsWith := formats; completed := done |} frmt strategies
       = negotiate resolve (specMatch resolve)
           {| params_format := param; headers_accept := Some a';
              respondsWith := formats; completed := done |}
           frmt strategies).
Proof.
  assert (∀ (this : controller) (a : string),
    headers_accept this = Some a → a ≠ "" → accepts this = split_comma a)
    as Haccepts.
  { intros this a Ha Hne. unfold accepts. rewrite Ha.
    by rewrite (proj2 (when_truthy_Some (Some a) a)). }
  split; [done|]. split; [apply split_comma_join|]. split; [|split].
  - intros es. apply for_each_wildcard_media.
    by rewrite fmap_before_semicolon_idemp.
  - intros resolve es types.
    apply negotiate_types_media; [apply specMatch_ignores_parameters|].
    by rewrite fmap_before_semicolon_idemp.
  - intros resolve a a' param formats done frmt strategies Ha Ha' Heq.
    unfold negotiate.
    rewrite (Haccepts (Build_controller param (Some a) formats done) a),
      (Haccepts (Build_controller param (Some a') formats done) a')
      by done.
    by apply negotiate_types_media; [apply specMatch_ignores_parameters|].
Qed.

(** C7. With a matcher that answers, as the specification has it, with
    the content type registered for the candidate: every result
    [negotiate] returns has a format and a content type, and the
    resolver maps that format to that content type. *)
Theorem C7_result_resolves
    (resolve : string → option string) (this : controller)
    (frmt : option string) (strategies : option strategy_map)
    (r : negotiated) :
  negotiate resolve (specMatch resolve) this frmt strategies = Returns r →
  ∃ f ct, format r = Some f ∧ contentType r = Some ct
          ∧ resolve f = Some ct.
Proof.
  intros Hr.
  destruct (negotiate_Returns_resolves resolve (specMatch resolve)
              this frmt strategies r) as (f & ct & ? & ? & _ & ?);
    [apply specMatch_Some | done | by exists f, ct].
Qed.

(** ** Witnesses and counterexamples *)

Lemma C1_witness :
  sampleNegotiate (request (Some "application/json") None ["json"; "html"])
    None None
  = Returns {| format := Some "json"; contentType := Some "application/json" |}
  ∧ sampleNegotiate (request (Some "application/json") None ["html"; "json"])
      None None
    = Throws UndefinedFormatError.
Proof.
  destruct (C1_unmatched_candidate_fails sampleContentType
              (specMatch sampleContentType)) as [Hgeneral Hhtml].
  split.
  - destruct (Hgeneral
                (request (Some "application/json") None ["json"; "html"])
                None None "json" ["html"]) as [Hmatch _].
    + reflexivity.
    + decide_by_computation.
    + apply Hmatch; [reflexivity | discriminate].
  - apply (Hhtml false). reflexivity.
Defined.

Lemma C2_witness :
  sampleNegotiate (request None None ["html"; "json"]) None None
  = Returns {| format := Some "html"; contentType := Some "text/html" |}
  ∧ head (types (request None None ["html"; "json"]) None
            (acceptFormats (request None None ["html"; "json"])
               respondWithStrategies))
    = Some "html"
  ∧ sampleNegotiate (request (Some "application/json, */*") None
                       ["html"; "json"]) None None
    = Returns {| format := Some "html"; contentType := Some "text/html" |}.
Proof.
  destruct (C2_wildcard_first_candidate sampleContentType
              (specMatch sampleContentType))
    as (Hgeneral & Hfirst & Hexample).
  split; [|split].
  - apply (Hgeneral (request None None ["html"; "json"]) None None
             "html" ["json"]); [reflexivity | by left | reflexivity].
  - apply (Hfirst (request None None ["html"; "json"]) None
             (Some respondWithStrategies) "html" ["json"]); reflexivity.
  - apply (Hexample false). reflexivity.
Defined.

Lemma C10_witness :
  (∃ t, head (types (request (Some "text/html") None ["html"; "json"]) None
                (acceptFormats (request (Some "text/html") None
                                  ["html"; "json"]) []))
        = Some t
        ∧ Some "html" = Some t)
  ∧ negotiate_types sampleContentType (specMatch sampleContentType)
      ["application/json"] ["html"; "json"]
    = negotiate_types sampleContentType (specMatch sampleContentType)
        ["application/json"] ["html"].
Proof.
  destruct (C10_first_candidate_only sampleContentType
              (specMatch sampleContentType)) as [Hfirst Hrest].
  split.
  - apply (Hfirst (request (Some "text/html") None ["html"; "json"])
             None None
             {| format := Some "html"; contentType := Some "text/html" |}).
    reflexivity.
  - apply Hrest.
Defined.

(** C5 refuted as stated: [params.format] set to the empty string is
    not among the formats, yet the candidates are the full list and
    negotiation succeeds. *)
Lemma C5_counterexample :
  params_format (request None (Some "") ["html"; "json"]) = Some ""
  ∧ ("" ∉ acceptFormats (request None (Some "") ["html"; "json"]) [])
  ∧ types (request None (Some "") ["html"; "json"]) None
      (acceptFormats (request None (Some "") ["html"; "json"]) [])
    = ["html"; "json"]
  ∧ sampleNegotiate (request None (Some "") ["html"; "json"]) None None
    = Returns {| format := Some "html"; contentType := Some "text/html" |}.
Proof.
  split; [reflexivity|]. split; [decide_by_computation|].
  split; reflexivity.
Qed.

Lemma C5_witness :
  types (request None (Some "json") ["html"; "json"]) None
    (acceptFormats (request None (Some "json") ["html"; "json"]) [])
  = ["json"]
  ∧ types (request None (Some "pdf") ["html"; "json"]) None
      (acceptFormats (request None (Some "pdf") ["html"; "json"]) [])
    = []
  ∧ sampleNegotiate (request None (Some "pdf") ["html"; "json"]) None None
    = Throws UndefinedFormatError.
Proof.
  split.
  - apply (C5_param_format_candidates sampleContentType
             (specMatch sampleContentType)
             (request None (Some "json") ["html"; "json"]) None None "json");
      [reflexivity | reflexivity | discriminate |].
    left. decide_by_computation.
  - apply (C5_param_format_candidates sampleContentType
             (specMatch sampleContentType)
             (request None (Some "pdf") ["html"; "json"]) None None "pdf");
      [reflexivity | reflexivity | discriminate |].
    decide_by_computation.
Defined.

(** C6 refuted as stated: an empty [frmt] is passed over, and the
    candidates come from [params.format]. *)
Lemma C6_counterexample :
  types (request None (Some "json") ["html"; "json"]) (Some "")
    (acceptFormats (request None (Some "json") ["html"; "json"]) [])
  = ["json"].
Proof. reflexivity. Qed.

Lemma C6_witness :
  types (request None (Some "json") ["html"; "json"]) (Some "pdf")
    (acceptFormats (request None (Some "json") ["html"; "json"]) [])
  = ["pdf"]
  ∧ sampleNegotiate (request None (Some "json") ["html"; "json"])
      (Some "pdf") None
    = negotiate_types sampleContentType (specMatch sampleContentType)
        (accepts (request None (Some "json") ["html"; "json"])) ["pdf"].
Proof.
  apply (C6_requested_format_sole_candidate sampleContentType
           (specMatch sampleContentType)
           (request None (Some "json") ["html"; "json"]) "pdf" None).
  discriminate.
Defined.

Lemma C7_witness :
  ∃ f ct,
    Some "json" = Some f ∧ Some "application/json" = Some ct
    ∧ sampleContentType f = Some ct.
Proof.
  apply (C7_result_resolves sampleContentType
           (request (Some "text/html;q=0.8, application/json") None
              ["json"; "html"])
           None None
           {| format := Some "json"; contentType := Some "application/json" |}).
  reflexivity.
Defined.

(** C4 refuted as stated: a header that is present but empty is not
    split. Its only entry would be the empty string, which is no
    wildcard and matches nothing; [negotiate] takes the header for
    [*/*] instead and returns the first candidate. *)
Lemma C4_counterexample :
  headers_accept (request (Some "") None ["html"]) = Some ""
  ∧ split_comma "" = [""]
  ∧ negotiate_types sampleContentType (specMatch sampleContentType)
      (split_comma "") ["html"]
    = Throws UndefinedFormatError
  ∧ accepts (request (Some "") None ["html"]) = ["*/*"]
  ∧ sampleNegotiate (request (Some "") None ["html"]) None None
    = Returns {| format := Some "html"; contentType := Some "text/html" |}.
Proof. repeat split. Qed.

Lemma C4_witness :
  accepts (request (Some "text/html , */*;q=0.1") None ["html"])
  = split_comma "text/html , */*;q=0.1"
  ∧ split_comma "text/html;q=0.9 ,  application/json"
    = ["text/html;q=0.9"; "application/json"]
  ∧ sampleNegotiate
      (request (Some "text/html;q=0.9, application/json;q=0.8") None
         ["json"; "html"]) None None
    = sampleNegotiate
        (request (Some "text/html ,application/json;level=1") None
           ["json"; "html"]) None None.
Proof.
  destruct C4_accept_entries
    as (Haccepts & Hsplit & _ & _ & Hheaders).
  split; [|split].
  - apply Haccepts; [reflexivity | discriminate].
  - apply (Hsplit "text/html;q=0.9"
             [ {| ws_before := " "; ws_after := "  ";
                  entry := "application/json" |} ]); reflexivity.
  - apply (Hheaders sampleContentType
             "text/html;q=0.9, application/json;q=0.8"
             "text/html ,application/json;level=1"
             None ["json"; "html"] false None None);
      [discriminate | discriminate | reflexivity].
Defined.

(** C3 refuted as stated: an empty [options.type] is supplied and not
    used; and content without a [type] makes [respondWith] throw before
    the supplied type is looked at. *)
Lemma C3_counterexample :
  respondWith_type widget {[ "type" := VString "" ]}
  = Returns (VString "widget")
  ∧ respondWith_type (CObject ∅) {[ "type" := VString "override" ]}
    = Throws TypeError
  ∧ sampleRespondWith (request None None ["html"]) (CObject ∅)
      (Some {[ "type" := VString "override" ]}) "cb"
    = Throws TypeError.
Proof. repeat split. Qed.

Lemma C3_witness :
  respondWith_type (CArray [widget; CObject ∅]) ∅
  = Returns (VString "widget")
  ∧ respondWith_type widget {[ "type" := VString "override" ]}
    = Returns (VString "override")
  ∧ respondWith_type widget ∅
    = Returns
        (get (mixin ∅ [ <[ "type" := VString "widget" ]> ∅;
                        negotiated_props
                          {| format := Some "html";
                             contentType := Some "text/html" |} ])
           "type").
Proof.
  destruct (C3_type_inference (Callback := string) (Body := string)
              sampleContentType (specMatch sampleContentType))
    as (_ & Harray & Hobject & Hdispatch).
  split; [|split].
  - etrans;
      [ apply (Harray {[ "type" := VString "Widget" ]} ∅ [CObject ∅] "Widget")
      | ]; reflexivity.
  - etrans;
      [ apply (Hobject {[ "type" := VString "Widget" ]}
                 {[ "type" := VString "override" ]} "Widget")
      | ]; reflexivity.
  - apply (Hdispatch (request None None ["html"]) widget None "cb"
             (CallStrategy HtmlStrategy widget
                (mixin ∅ [ <[ "type" := VString "widget" ]> ∅;
                           negotiated_props
                             {| format := Some "html";
                                contentType := Some "text/html" |} ])
                "cb")); reflexivity.
Defined.

Lemma C8_witness :
  sampleRespondTo
    {| params_format := None; headers_accept := None;
       respondsWith := ["html"]; completed := true |}
    widget (Some respondWithStrategies) None "cb"
  = Returns Nothing.
Proof.
  destruct (C8_completed_no_dispatch (Body := string)
              sampleContentType (specMatch sampleContentType)
              {| params_format := None; headers_accept := None;
                 respondsWith := ["html"]; completed := true |}
              widget (Some respondWithStrategies) None "cb")
    as [Hcompleted _].
  destruct (Hcompleted eq_refl) as [Hsilent _].
  apply (Hsilent
           {| format := Some "html"; contentType := Some "text/html" |}).
  reflexivity.
Defined.

(** C9 refuted as stated: a status code of 0 is supplied, and the
    response is written with 200. *)
Lemma C9_counterexample :
  formatted
    (respond widget
       (Some {[ "statusCode" := VNumber 0;
                "contentType" := VString "text/html" ]}) "cb")
    "<p>widget</p>"
  = Some (DoResponse (VNumber 200)
            {[ "Content-Type" := VString "text/html" ]}
            "<p>widget</p>" "cb").
Proof. vm_compute. reflexivity. Qed.

(** ** The merged formats *)

Lemma foldl_push_key_NoDup (ks fs : list string) :
  NoDup fs → NoDup (foldl push_key fs ks).
Proof.
  revert fs. induction ks as [|k ks IH]; intros fs Hfs; simpl; [done|].
  apply IH. unfold push_key. case_bool_decide as Hk; [done|].
  apply NoDup_app. split; [done|]. split; [|apply NoDup_singleton].
  intros x Hx ->%list_elem_of_singleton. done.
Qed.

Lemma foldl_push_key_new (ks fs : list string) :
  ∃ new, foldl push_key fs ks = fs ++ new ∧ NoDup new
         ∧ ∀ k, k ∈ new ↔ k ∈ ks ∧ k ∉ fs.
Proof.
  revert fs. induction ks as [|k ks IH]; intros fs; simpl.
  - exists []. rewrite app_nil_r. split; [done|]. split; [constructor|].
    intros k. split; [by intros ?%elem_of_nil | by intros [?%elem_of_nil _]].
  - unfold push_key at 2. case_bool_decide as Hk.
    + destruct (IH fs) as (new & -> & Hnd & Hin). exists new.
      split; [done|]. split; [done|]. intros k'. rewrite Hin, elem_of_cons.
      split; [tauto|]. intros [[->|?] ?]; done.
    + destruct (IH (fs ++ [k])) as (new & -> & Hnd & Hin). exists (k :: new).
      split; [by rewrite <- app_assoc|]. split.
      * constructor; [|done]. rewrite Hin, elem_of_app, list_elem_of_singleton.
        tauto.
      * intros k'. rewrite !elem_of_cons, Hin, elem_of_app,
          list_elem_of_singleton.
        destruct (decide (k' = k)) as [->|]; tauto.
Qed.

(** X1. Merging the strategies' keys into the controller's formats keeps
    the formats in front, in their order, and appends after them each
    key that the formats lack, once. *)
Theorem X1_acceptFormats_appends_new_keys
    (this : controller) (strategies : strategy_map) :
  ∃ new, acceptFormats this strategies = respondsWith this ++ new
         ∧ NoDup new
         ∧ ∀ k, k ∈ new ↔ k ∈ keys strategies ∧ k ∉ respondsWith this.
Proof. apply foldl_push_key_new. Qed.

(** X2. When the controller's formats hold no format twice, neither do
    the merged formats, even if a key is enumerated twice; and when the
    formats already hold every key, merging changes nothing. *)
Theorem X2_acceptFormats_no_duplicates
    (this : controller) (strategies : strategy_map) :
  (NoDup (respondsWith this) → NoDup (acceptFormats this strategies))
  ∧ (keys strategies ⊆ respondsWith this →
     acceptFormats this strategies = respondsWith this).
Proof.
  split; [apply foldl_push_key_NoDup|]. intros Hsub.
  destruct (foldl_push_key_new (keys strategies) (respondsWith this))
    as (new & Heq & _ & Hin).
  unfold acceptFormats. rewrite Heq. destruct new as [|k new].
  - by rewrite app_nil_r.
  - destruct (proj1 (Hin k)) as [Hk Hnot]; [by left|].
    by apply Hsub in Hk.
Qed.

(** ** The entries of the header *)

Lemma no_comma_rev_app (a b : string) :
  no_comma (String.rev_app a b) = no_comma a && no_comma b.
Proof.
  revert b. induction a as [|c a IH]; intros b; simpl; [done|].
  rewrite IH. simpl. destruct (Ascii.eqb c ","), (no_comma a); simpl; try done.
Qed.

Lemma no_comma_rev (s : string) : no_comma (String.rev s) = no_comma s.
Proof. unfold String.rev. rewrite no_comma_rev_app. simpl. apply andb_true_r. Qed.

(** A comma is matched by the separator. *)
Lemma match_sep_comma (r : string) :
  match_sep (String "," r) = Some (S (span_ws r)).
Proof. reflexivity. Qed.

Lemma split_from_no_comma (s : string) (skip : nat) (cur : string) :
  no_comma cur = true →
  Forall (λ e, no_comma e = true) (split_from s skip cur).
Proof.
  revert skip cur. induction s as [|c s IH]; intros skip cur Hcur.
  - cbn [split_from]. constructor; [by rewrite no_comma_rev | constructor].
  - cbn [split_from]. destruct skip as [|k]; [|by apply IH].
    assert (Ascii.eqb c "," = false →
            Forall (λ e, no_comma e = true) (split_from s 0 (String c cur)))
      as Hnext.
    { intros Hc. apply IH. simpl. by rewrite Hc. }
    destruct (match_sep (String c s)) as [[|k]|] eqn:Hsep.
    + destruct (Ascii.eqb_spec c ","); [|by apply Hnext].
      subst c. by rewrite match_sep_comma in Hsep.
    + constructor; [by rewrite no_comma_rev | by apply IH].
    + destruct (Ascii.eqb_spec c ","); [|by apply Hnext].
      subst c. by rewrite match_sep_comma in Hsep.
Qed.

Lemma split_from_not_nil (s : string) (skip : nat) (cur : string) :
  split_from s skip cur ≠ [].
Proof.
  revert skip cur. induction s as [|c s IH]; intros skip cur; [done|].
  cbn [split_from]. destruct skip; [|done].
  by destruct (match_sep (String c s)) as [[|k]|].
Qed.

Lemma match_sep_without_comma (s : string) :
  no_comma s = true → match_sep s = None.
Proof.
  unfold match_sep. intros Hs.
  assert (no_comma (drop_ws s) = true) as Hd.
  { induction s as [|c s IH]; [done|]. simpl.
    destruct (is_space c); [|done]. apply IH.
    simpl in Hs. by apply andb_true_iff in Hs as [_ ?]. }
  destruct (drop_ws s) as [|c r]; [done|]. simpl in Hd.
  by destruct (Ascii.eqb c ",").
Qed.

Lemma split_from_without_comma (s cur : string) :
  no_comma s = true →
  split_from s 0 cur = [String.rev (String.rev_app s cur)].
Proof.
  revert cur. induction s as [|c s IH]; intros cur Hs; [done|].
  cbn [split_from]. rewrite match_sep_without_comma by done.
  apply IH. simpl in Hs. by apply andb_true_iff in Hs as [_ ?].
Qed.

(** X3. Whatever the Accept header is, there is at least one entry and
    no entry contains a comma. *)
Theorem X3_accepts_entries_without_comma (this : controller) :
  accepts this ≠ [] ∧ Forall (λ e, no_comma e = true) (accepts this).
Proof.
  unfold accepts. destruct (when_truthy (headers_accept this)) as [a|].
  - split; [apply split_from_not_nil | by apply split_from_no_comma].
  - split; [done|]. by repeat constructor.
Qed.

(** X4. A non-empty header without a comma is a single entry, kept as
    it is: whitespace at its ends is not trimmed. *)
Theorem X4_accepts_single_entry (this : controller) (a : string) :
  headers_accept this = Some a → a ≠ "" → no_comma a = true →
  accepts this = [a].
Proof.
  intros Ha Hne Hc. unfold accepts.
  rewrite Ha, (proj2 (when_truthy_Some (Some a) a)) by done.
  unfold split_comma. rewrite split_from_without_comma by done.
  by rewrite rev_rev_app.
Qed.

(** ** When negotiation takes the wildcard path, and how it fails *)

Lemma before_semicolon_app (s p : string) :
  before_semicolon s = s →
  before_semicolon (s +:+ String ";" p) = s.
Proof.
  induction s as [|c s IH]; [done|]. simpl.
  destruct (Ascii.eqb c ";"); [done|]. intros [= Hs]. by rewrite IH.
Qed.

Section NegotiationPaths.

Variable resolve : string → option string.
Variable matcher : list string → string → option string.

(** X5. The wildcard loop sets its flag exactly when the Accept header
    is absent, is the empty string, or has an entry whose part before
    the first [;] is [*/*]. *)
Theorem X5_wildcard_flag (this : controller) :
  for_each wildcard_body (accepts this) false = Returns true
  ↔ headers_accept this = None
    ∨ headers_accept this = Some ""
    ∨ ∃ a, headers_accept this = Some a
           ∧ Exists is_wildcard (split_comma a).
Proof.
  rewrite for_each_wildcard.
  assert (Exists is_wildcard (accepts this)
          ↔ headers_accept this = None
            ∨ headers_accept this = Some ""
            ∨ ∃ a, headers_accept this = Some a
                   ∧ Exists is_wildcard (split_comma a)) as <-.
  { unfold accepts. destruct (headers_accept this) as [a|] eqn:Ha.
    - destruct (when_truthy (Some a)) as [a'|] eqn:E.
      + apply when_truthy_Some in E as [[= <-] Hne].
        split; [by right; right; exists a|].
        intros [?|[[= ?]|(a' & [= <-] & ?)]]; done.
      + apply when_truthy_None in E as [?|[= ->]]; [done|].
        split; [by right; left | by left].
    - split; [by left | by left]. }
  destruct (decide (Exists is_wildcard (accepts this))); by split.
Qed.

(** X6. A wildcard entry counts whatever its parameters are, a quality
    factor of zero included, and wherever it stands among the entries:
    the first candidate is then resolved and the matcher not asked. *)
Theorem X6_wildcard_parameters_ignored
    (es1 es2 : list string) (p t : string) (rest : list string) :
  negotiate_types resolve matcher
    (es1 ++ ("*/*" +:+ String ";" p) :: es2) (t :: rest)
  = if truthy_str (resolve t)
    then Returns {| format := Some t; contentType := resolve t |}
    else Throws UndefinedFormatError.
Proof.
  apply negotiate_types_wildcard, Exists_app. right. left.
  unfold is_wildcard. by apply before_semicolon_app.
Qed.

(** X7. On the wildcard path the outcome does not depend on the
    matcher, and on the other path it does not depend on the resolver. *)
Theorem X7_one_collaborator_per_path
    (this : controller) (frmt : option string)
    (strategies : option strategy_map) :
  (Exists is_wildcard (accepts this) →
   ∀ matcher', negotiate resolve matcher this frmt strategies
               = negotiate resolve matcher' this frmt strategies)
  ∧ (¬ Exists is_wildcard (accepts this) →
     ∀ resolve', negotiate resolve matcher this frmt strategies
                 = negotiate resolve' matcher this frmt strategies).
Proof.
  unfold negotiate.
  destruct (types this frmt _) as [|t rest]; [done|]. split; intros Hw other.
  - by rewrite !negotiate_types_wildcard.
  - by rewrite !negotiate_types_no_wildcard.
Qed.

(** X8. [negotiate] throws nothing but UndefinedFormatError, and throws
    it exactly when there is no candidate, or the path taken (resolver
    with a wildcard, matcher without) yields no non-empty content type
    for the first candidate. *)
Theorem X8_negotiate_throws_iff
    (this : controller) (frmt : option string)
    (strategies : option strategy_map) (e : error) :
  negotiate resolve matcher this frmt strategies = Throws e
  ↔ e = UndefinedFormatError
    ∧ match types this frmt (acceptFormats this (default [] strategies)) with
      | [] => True
      | t :: _ =>
          if decide (Exists is_wildcard (accepts this))
          then truthy_str (resolve t) = false
          else truthy_str (matcher (accepts this) t) = false
      end.
Proof.
  unfold negotiate.
  destruct (types this frmt _) as [|t rest].
  - simpl. split; [by intros [= <-] | by intros [-> _]].
  - destruct (decide (Exists is_wildcard (accepts this))) as [Hw|Hw].
    + rewrite negotiate_types_wildcard by done.
      destruct (truthy_str (resolve t));
        (split; [by intros [= <-] | by intros [-> ?]]).
    + rewrite negotiate_types_no_wildcard by done.
      destruct (truthy_str (matcher (accepts this) t));
        (split; [by intros [= <-] | by intros [-> ?]]).
Qed.

(** X9. Whatever the collaborators are, a result that [negotiate]
    returns has a format and a content type that is not the empty
    string. *)
Theorem X9_result_is_complete
    (this : controller) (frmt : option string)
    (strategies : option strategy_map) (r : negotiated) :
  negotiate resolve matcher this frmt strategies = Returns r →
  ∃ f ct, r = {| format := Some f; contentType := Some ct |} ∧ ct ≠ "".
Proof.
  intros Hr. unfold negotiate in Hr.
  apply negotiate_types_Returns in Hr as (t & rest & ct & _ & -> & Hne & _).
  by exists t, ct.
Qed.

(** X10. A hint is honoured or negotiation fails: with a non-empty
    [frmt] the format returned is [frmt]; without one and with a
    non-empty [params.format] it is [params.format], which is then one
    of the merged formats. A hint never falls back on another format. *)
Theorem X10_hint_or_failure
    (this : controller) (frmt : option string)
    (strategies : option strategy_map) (r : negotiated) :
  negotiate resolve matcher this frmt strategies = Returns r →
  (∀ f, frmt = Some f → f ≠ "" → format r = Some f)
  ∧ (∀ f, when_truthy frmt = None → params_format this = Some f → f ≠ "" →
       format r = Some f
       ∧ (f ∈ respondsWith this ∨ f ∈ keys (default [] strategies))).
Proof.
  intros Hr. unfold negotiate in Hr.
  apply negotiate_types_Returns in Hr as (t & rest & ct & Ht & -> & _ & _).
  unfold types in Ht. split.
  - intros f -> Hne.
    rewrite (proj2 (when_truthy_Some (Some f) f)) in Ht by done.
    by injection Ht as <- _.
  - intros f Hfrmt Hp Hne. rewrite Hfrmt in Ht.
    rewrite (proj2 (when_truthy_Some (params_format this) f)) in Ht by done.
    case_bool_decide as Hin; [|done]. injection Ht as <- _.
    split; [done|]. by apply elem_of_acceptFormats.
Qed.

(** X11. A controller without formats, given strategies without keys
    and no [frmt], cannot negotiate: whatever the Accept header and
    [params.format] are, UndefinedFormatError is thrown. *)
Theorem X11_no_formats_no_negotiation
    (this : controller) (frmt : option string)
    (strategies : option strategy_map) :
  respondsWith this = [] → keys (default [] strategies) = [] →
  when_truthy frmt = None →
  negotiate resolve matcher this frmt strategies
  = Throws UndefinedFormatError.
Proof.
  intros Hf Hk Hfrmt. unfold negotiate, types, acceptFormats.
  rewrite Hfrmt, Hf, Hk. cbn [foldl].
  destruct (when_truthy (params_format this)) as [f|]; [|done].
  by rewrite bool_decide_eq_false_2 by apply not_elem_of_nil.
Qed.

End NegotiationPaths.

(** ** What is dispatched, and with which options *)

Lemma negotiate_default_strategies
    (resolve : string → option string)
    (matcher : list string → string → option string)
    (this : controller) (frmt : option string)
    (strategies : option strategy_map) :
  negotiate resolve matcher this frmt (Some (default [] strategies))
  = negotiate resolve matcher this frmt strategies.
Proof. by destruct strategies. Qed.


Lemma mixin_negotiated_format (opts : gmap string value) (n : negotiated) :
  get (mixin ∅ [opts; negotiated_props n]) "format" = of_str (format n)
  ∧ get (mixin ∅ [opts; negotiated_props n]) "contentType"
    = of_str (contentType n).
Proof.
  unfold get, mixin, negotiated_props; cbn [foldl]. split.
  - by rewrite (lookup_union_Some_l _ _ _ (of_str (format n)))
      by apply lookup_insert_eq.
  - rewrite (lookup_union_Some_l _ _ _ (of_str (contentType n))); [done|].
    rewrite lookup_insert_ne by done. apply lookup_singleton_eq.
Qed.

Section DispatchPaths.

Context {Callback Body : Type}.
Variable resolve : string → option string.
Variable matcher : list string → string → option string.

Implicit Types (cb : Callback) (body : Body) (a : @action Callback Body).


(** X13. A function is called only if it is what the strategies hold
    under the negotiated format, as an own property or, failing that,
    inherited from [Object.prototype], and it is called with the content
    and the callback of the caller; [formatContent] is called, for the
    negotiated format, only if the strategies hold no function under it,
    own or inherited. *)
Theorem X13_dispatch_by_negotiated_format
    (this : controller) (c : content) (strategies : option strategy_map)
    (opts : option (gmap string value)) cb :
  (∀ h c' o cb',
     respondTo (Body := Body) resolve matcher this c strategies opts cb
     = Returns (CallStrategy h c' o cb') →
     completed this = false ∧ c' = c ∧ cb' = cb
     ∧ ∃ f ct, negotiate resolve matcher this None strategies
               = Returns {| format := Some f; contentType := Some ct |}
               ∧ prop (default [] strategies) f = Some (Function h))
  ∧ (∀ fmt c' o formatCb,
       respondTo (Body := Body) resolve matcher this c strategies opts cb
       = Returns (FormatContent fmt c' o formatCb) →
       completed this = false ∧ c' = c
       ∧ ∃ f ct, negotiate resolve matcher this None strategies
                 = Returns {| format := Some f; contentType := Some ct |}
                 ∧ fmt = VString f
                 ∧ ∀ h, prop (default [] strategies) f ≠ Some (Function h)).
Proof.
  unfold respondTo. rewrite negotiate_default_strategies.
  destruct (negotiate resolve matcher this None strategies) as [n|e] eqn:Hn;
    cbn [bind]; [|done].
  unfold negotiate in Hn.
  apply negotiate_types_Returns in Hn as (f & rest & ct & _ & -> & _ & _).
  change (prop_key (format {| format := Some f; contentType := Some ct |}))
    with f.
  destruct (completed this); [done|].
  assert (∀ o, (∀ h, prop (default [] strategies) f ≠ Some (Function h)) →
    (∀ h c' o' cb',
       Returns (respond (Body := Body) c (Some o) cb)
       = Returns (CallStrategy h c' o' cb') → False)
    ∧ (∀ fmt c' o' formatCb,
         Returns (respond (Body := Body) c (Some o) cb)
         = Returns (FormatContent fmt c' o' formatCb) →
         c' = c ∧ fmt = get o "format")) as Hrespond.
  { intros o _. split; [by intros ???? [=]|].
    by intros ???? [= <- <- <- _]. }
  destruct (prop (default [] strategies) f) as [[h|v]|] eqn:Hp;
    cbv beta iota.
  - split; [|by intros ???? [=]].
    intros ???? [= <- <- <- <-]. repeat split. by exists f, ct.
  - destruct (Hrespond (mixin ∅ [default ∅ opts;
        negotiated_props {| format := Some f; contentType := Some ct |}]))
      as [Hno Hyes]; [done|].
    split; [by intros ???? ?%Hno|]. intros ???? [-> ->]%Hyes.
    repeat split. exists f, ct. split; [done|].
    split; [|intros h; congruence].
    apply (mixin_negotiated_format _
             {| format := Some f; contentType := Some ct |}).
  - destruct (Hrespond (mixin ∅ [default ∅ opts;
        negotiated_props {| format := Some f; contentType := Some ct |}]))
      as [Hno Hyes]; [done|].
    split; [by intros ???? ?%Hno|]. intros ???? [-> ->]%Hyes.
    repeat split. exists f, ct. split; [done|].
    split; [|intros h; congruence].
    apply (mixin_negotiated_format _
             {| format := Some f; contentType := Some ct |}).
Qed.

(** X14. The options handed on by [respondTo] carry the negotiated
    format and content type, which replace any [format] and
    [contentType] of the caller; every other option is the caller's. *)
Theorem X14_negotiated_options_win
    (this : controller) (c : content) (strategies : option strategy_map)
    (opts : option (gmap string value)) cb a (o : gmap string value) :
  respondTo (Body := Body) resolve matcher this c strategies opts cb
  = Returns a →
  action_opts a = Some o →
  (∃ f ct, negotiate resolve matcher this None strategies
           = Returns {| format := Some f; contentType := Some ct |}
           ∧ get o "format" = VString f
           ∧ get o "contentType" = VString ct)
  ∧ (∀ k, k ≠ "format" → k ≠ "contentType" →
          get o k = get (default ∅ opts) k).
Proof.
  intros Hr Ho. split; [|intros k; by apply (respondTo_opts _ _ _ _ _ _ _ _ _ _ Hr)].
  unfold respondTo in Hr. rewrite negotiate_default_strategies in Hr.
  destruct (negotiate resolve matcher this None strategies) as [n|e] eqn:Hn;
    cbn [bind] in Hr; [|done].
  unfold negotiate in Hn.
  apply negotiate_types_Returns in Hn as (f & rest & ct & _ & -> & _ & _).
  exists f, ct. split; [done|].
  destruct (completed this); [by injection Hr as <-|].
  destruct (prop _ _) as [[h|v]|]; injection Hr as <-;
    cbn in Ho; injection Ho as <-;
    apply (mixin_negotiated_format _
             {| format := Some f; contentType := Some ct |}).
Qed.

(** X15. When [respondTo] falls through to [respond] (flag not set, no
    function, own or inherited, under the negotiated format), the
    response is
    written with the negotiated content type as Content-Type, whatever
    [contentType] the caller's options held, with the caller's status
    code if truthy and 200 otherwise, and with the caller's callback. *)
Theorem X15_default_response
    (this : controller) (c : content) (strategies : option strategy_map)
    (opts : option (gmap string value)) cb (f ct : string) :
  completed this = false →
  negotiate resolve matcher this None strategies
  = Returns {| format := Some f; contentType := Some ct |} →
  (∀ h, prop (default [] strategies) f ≠ Some (Function h)) →
  ∃ a, respondTo (Body := Body) resolve matcher this c strategies opts cb
       = Returns a
       ∧ ∀ body,
           formatted a body
           = Some (DoResponse
                     (or_else (get (default ∅ opts) "statusCode")
                        (VNumber 200))
                     {[ "Content-Type" := VString ct ]} body cb).
Proof.
  intros Hc Hn Hp. unfold respondTo.
  rewrite negotiate_default_strategies, Hn, Hc. cbn [bind].
  change (prop_key (format {| format := Some f; contentType := Some ct |}))
    with f.
  set (o := mixin ∅ [default ∅ opts; negotiated_props _]).
  assert (get o "contentType" = VString ct) as Hct
    by apply (mixin_negotiated_format _
                {| format := Some f; contentType := Some ct |}).
  assert (get o "statusCode" = get (default ∅ opts) "statusCode") as Hsc
    by (by apply mixin_negotiated_other).
  eexists. split.
  - destruct (prop (default [] strategies) f) as [[h|v]|] eqn:E;
      [by destruct (Hp h) | reflexivity | reflexivity].
  - intros body. cbn [formatted respond].
    change (default ∅ (Some o)) with o. by rewrite Hct, Hsc.
Qed.

(** X16. The status code [respond] writes with is never falsy: not 0,
    not the empty string, not [null], [undefined] or [false]. *)
Theorem X16_status_is_truthy
    (c : content) (options : option (gmap string value)) cb body
    (status : value) (headers : gmap string value) body' cb' :
  formatted (respond c options cb) body
  = Some (DoResponse status headers body' cb') →
  truthy status = true.
Proof.
  cbn [formatted respond]. intros [= <- _ _ _]. unfold or_else.
  by destruct (truthy (get (default ∅ options) "statusCode")) eqn:E.
Qed.

End DispatchPaths.

(** ** Formats that can be returned; [respondWith] *)

Lemma types_subseteq (this : controller) (frmt : option string)
    (merged : list string) :
  when_truthy frmt = None → types this frmt merged ⊆ merged.
Proof.
  intros Hfrmt. unfold types. rewrite Hfrmt.
  destruct (when_truthy (params_format this)) as [f|]; [|done].
  case_bool_decide as Hin.
  - intros x ->%list_elem_of_singleton. done.
  - intros x ?%elem_of_nil. done.
Qed.

Lemma negotiate_format_declared
    (resolve : string → option string)
    (matcher : list string → string → option string)
    (this : controller) (frmt : option string)
    (strategies : option strategy_map) (f : string) (ct : option string) :
  when_truthy frmt = None →
  negotiate resolve matcher this frmt strategies
  = Returns {| format := Some f; contentType := ct |} →
  f ∈ respondsWith this ∨ f ∈ keys (default [] strategies).
Proof.
  intros Hfrmt Hr. unfold negotiate in Hr.
  apply negotiate_types_Returns in Hr as (t & rest & ct' & Ht & [= -> _] & _).
  apply elem_of_acceptFormats, (types_subseteq this frmt _ Hfrmt).
  rewrite Ht. by left.
Qed.






Lemma filter_not_elem_of_snoc (fs ks : list string) (k : string) :
  k ∉ ks →
  filter (λ x, x ∉ fs ++ [k]) ks = filter (λ x, x ∉ fs) ks.
Proof.
  induction ks as [|x ks IH]; [done|].
  intros [Hx Hks]%not_elem_of_cons. rewrite !filter_cons, IH by done.
  destruct (decide (x ∉ fs ++ [k])) as [H|H],
           (decide (x ∉ fs)) as [H'|H']; try done.
  - exfalso. apply H'. intros Hin. apply H. apply elem_of_app. by left.
  - exfalso. apply H. rewrite elem_of_app, list_elem_of_singleton.
    intros [?|?]; by subst.
Qed.

Lemma foldl_push_key_filter (ks fs : list string) :
  NoDup ks →
  foldl push_key fs ks = fs ++ filter (λ k, k ∉ fs) ks.
Proof.
  revert fs. induction ks as [|k ks IH]; intros fs Hnd; simpl.
  - by rewrite app_nil_r.
  - apply NoDup_cons in Hnd as [Hk Hnd]. rewrite filter_cons.
    unfold push_key at 2. case_bool_decide as Hin.
    + rewrite decide_False by (by intros ?). by apply IH.
    + rewrite decide_True by done. rewrite IH by done.
      rewrite filter_not_elem_of_snoc by done. by rewrite <- app_assoc.
Qed.


Lemma respondTo_returns {Callback Body : Type}
    (resolve : string → option string)
    (matcher : list string → string → option string)
    (this : controller) (c : content) (strategies : option strategy_map)
    (opts : option (gmap string value)) (cb : Callback)
    (a : @action Callback Body) :
  respondTo resolve matcher this c strategies opts cb = Returns a →
  ∃ f ct,
    negotiate resolve matcher this None strategies
    = Returns {| format := Some f; contentType := Some ct |}
    ∧ (a = Nothing
       ∨ (∃ h o, prop (default [] strategies) f = Some (Function h)
                 ∧ a = CallStrategy h c o cb)
       ∨ ((∀ h, prop (default [] strategies) f ≠ Some (Function h))
          ∧ ∃ o formatCb, a = FormatContent (VString f) c o formatCb)).
Proof.
  unfold respondTo. rewrite negotiate_default_strategies.
  destruct (negotiate resolve matcher this None strategies) as [n|e] eqn:Hn;
    cbn [bind]; [|done].
  unfold negotiate in Hn.
  apply negotiate_types_Returns in Hn as (f & rest & ct & _ & -> & _ & _).
  change (prop_key (format {| format := Some f; contentType := Some ct |}))
    with f.
  intros Hr. exists f, ct. split; [done|].
  destruct (completed this); [left; by injection Hr as <-|]. right.
  set (n := {| format := Some f; contentType := Some ct |}) in *.
  pose proof (proj1 (mixin_negotiated_format (default ∅ opts) n)) as Hfmt.
  destruct (prop (default [] strategies) f) as [[h|v]|] eqn:Hp;
    injection Hr as <-.
  - left. by eexists _, _.
  - right. split; [done|]. eexists _, _. unfold respond.
    f_equal. exact Hfmt.
  - right. split; [done|]. eexists _, _. unfold respond.
    f_equal. exact Hfmt.
Qed.

Lemma prop_respondWithStrategies (f : string) :
  prop respondWithStrategies f
  = if bool_decide (f = "html") then Some (Function HtmlStrategy)
    else if bool_decide (f ∈ ["json"; "xml"; "js"; "txt"])
         then Some (Function ApiStrategy)
         else if bool_decide (f ∈ objectPrototypeFunctions)
              then Some (Function (Inherited f))
              else None.
Proof.
  unfold prop. cbn [own_prop respondWithStrategies].
  rewrite !string_eqb_decide.
  repeat case_bool_decide; subst; try done.
  all: exfalso; set_solver.
Qed.

Section RespondWith.

Context {Callback Body : Type}.
Variable resolve : string → option string.
Variable matcher : list string → string → option string.

Implicit Types (cb : Callback) (body : Body) (a : @action Callback Body).

(** X17. Without a [frmt], the format [negotiate] returns is one the
    controller declares or one of the strategies' keys: an Accept
    header or a [params.format] never brings in another format. *)
Theorem X17_returned_format_is_declared
    (this : controller) (frmt : option string)
    (strategies : option strategy_map) (r : negotiated) :
  when_truthy frmt = None →
  negotiate resolve matcher this frmt strategies = Returns r →
  ∃ f, format r = Some f
       ∧ (f ∈ respondsWith this ∨ f ∈ keys (default [] strategies)).
Proof.
  intros Hfrmt Hr. pose proof Hr as Hr'. unfold negotiate in Hr'.
  apply negotiate_types_Returns in Hr' as (t & rest & ct & _ & -> & _ & _).
  exists t. split; [done|].
  by apply (negotiate_format_declared resolve matcher this frmt strategies
              t (Some ct)).
Qed.

(** X18. The candidates of [respondWith] without hints are the
    controller's formats followed by those of html, json, xml, js and
    txt that it does not declare, in this order. *)
Theorem X18_respondWith_candidates (this : controller) :
  acceptFormats this respondWithStrategies
  = respondsWith this
    ++ filter (λ k, k ∉ respondsWith this)
         ["html"; "json"; "xml"; "js"; "txt"].
Proof.
  unfold acceptFormats. apply foldl_push_key_filter.
  apply (bool_decide_unpack _). vm_compute. exact I.
Qed.


(** X20. The only functions [respondWith] calls are the html strategy,
    for the format html, the api strategy, for json, xml, js and txt,
    and, for a format that the controller declares under the name of a
    function of [Object.prototype], that inherited function. It falls
    through to [formatContent] only for a format that the controller
    declares and that is none of these. *)
Theorem X20_respondWith_strategies
    (this : controller) (c : content) (opts : option (gmap string value)) cb :
  (∀ h c' o cb',
     respondWith (Body := Body) resolve matcher this c opts cb
     = Returns (CallStrategy h c' o cb') →
     ∃ f ct,
       negotiate resolve matcher this None (Some respondWithStrategies)
       = Returns {| format := Some f; contentType := Some ct |}
       ∧ (f = "html" ∧ h = HtmlStrategy
          ∨ f ∈ ["json"; "xml"; "js"; "txt"] ∧ h = ApiStrategy
          ∨ f ∈ objectPrototypeFunctions ∧ f ∈ respondsWith this
            ∧ h = Inherited f))
  ∧ (∀ fmt c' o formatCb,
       respondWith (Body := Body) resolve matcher this c opts cb
       = Returns (FormatContent fmt c' o formatCb) →
       ∃ f, fmt = VString f ∧ f ∈ respondsWith this
            ∧ (f ∉ ["html"; "json"; "xml"; "js"; "txt"])
            ∧ (f ∉ objectPrototypeFunctions)).
Proof.
  unfold respondWith.
  destruct (respondWith_type c (default ∅ opts)) as [type|e]; cbn [bind];
    [|done].
  assert (∀ f ct,
    negotiate resolve matcher this None (Some respondWithStrategies)
    = Returns {| format := Some f; contentType := Some ct |} →
    f ∉ ["html"; "json"; "xml"; "js"; "txt"] → f ∈ respondsWith this)
    as Hdeclared.
  { intros f ct Hn Hnot.
    destruct (negotiate_format_declared resolve matcher this None
                (Some respondWithStrategies) f (Some ct) eq_refl Hn)
      as [Hin|Hin]; [done|].
    exfalso. apply Hnot. exact Hin. }
  split.
  - intros h c' o cb' Hr.
    apply respondTo_returns in Hr
      as (f & ct & Hn & [?|[(h' & o' & Hp & [= -> _ _ _])|(_ & ? & ? & ?)]]);
      try done.
    exists f, ct. split; [done|].
    cbn [default] in Hp. rewrite prop_respondWithStrategies in Hp.
    case_bool_decide as Hhtml; [injection Hp as <-; by left|].
    case_bool_decide as Hapi; [injection Hp as <-; by right; left|].
    case_bool_decide as Hproto; [|done]. injection Hp as <-.
    right; right. split; [done|]. split; [|done].
    apply (Hdeclared f ct Hn). intros [?|?]%elem_of_cons; done.
  - intros fmt c' o formatCb Hr.
    apply respondTo_returns in Hr
      as (f & ct & Hn & [?|[(? & ? & _ & ?)|(Hp & o' & k & [= -> _ _ _])]]);
      try done.
    exists f. split; [done|].
    cbn [default] in Hp. rewrite prop_respondWithStrategies in Hp.
    case_bool_decide as Hhtml; [by destruct (Hp HtmlStrategy)|].
    case_bool_decide as Hapi; [by destruct (Hp ApiStrategy)|].
    case_bool_decide as Hproto; [by destruct (Hp (Inherited f))|].
    assert (f ∉ ["html"; "json"; "xml"; "js"; "txt"]) as Hnot
      by (intros [?|?]%elem_of_cons; done).
    split; [by apply (Hdeclared f ct Hn)|]. done.
Qed.

End RespondWith.

(** ** Concrete runs of the further properties *)

Lemma X1_witness :
  ∃ new,
    acceptFormats (request None None ["html"; "json"]) sampleStrategies
    = respondsWith (request None None ["html"; "json"]) ++ new
    ∧ NoDup new
    ∧ ∀ k, k ∈ new
           ↔ k ∈ keys sampleStrategies
             ∧ k ∉ respondsWith (request None None ["html"; "json"]).
Proof.
  apply (X1_acceptFormats_appends_new_keys
           (request None None ["html"; "json"]) sampleStrategies).
Defined.

Lemma X2_witness :
  NoDup (acceptFormats (request None None ["html"; "json"]) sampleStrategies)
  ∧ acceptFormats (request None None ["html"; "json"])
      [("json", NotFunction VNull)]
    = ["html"; "json"].
Proof.
  split.
  - destruct (X2_acceptFormats_no_duplicates
                (request None None ["html"; "json"]) sampleStrategies)
      as [Hnodup _].
    apply Hnodup. decide_by_computation.
  - destruct (X2_acceptFormats_no_duplicates
                (request None None ["html"; "json"])
                [("json", NotFunction VNull)])
      as [_ Hsame].
    apply Hsame. intros k ->%list_elem_of_singleton. decide_by_computation.
Defined.

Lemma X4_witness :
  accepts (request (Some " text/html ;q=1 ") None ["html"])
  = [" text/html ;q=1 "].
Proof.
  apply (X4_accepts_single_entry
           (request (Some " text/html ;q=1 ") None ["html"]));
    [reflexivity | discriminate | reflexivity].
Defined.

Lemma X5_witness :
  for_each wildcard_body
    (accepts (request (Some "text/html, */*;q=0.1") None ["html"])) false
  = Returns true.
Proof.
  apply (X5_wildcard_flag
           (request (Some "text/html, */*;q=0.1") None ["html"])).
  right; right. exists "text/html, */*;q=0.1".
  split; [reflexivity | decide_by_computation].
Defined.

Lemma X7_witness :
  negotiate sampleContentType (specMatch sampleContentType)
    (request None None ["html"; "json"]) None None
  = negotiate sampleContentType (specMatch pdfContentType)
      (request None None ["html"; "json"]) None None
  ∧ negotiate sampleContentType (specMatch sampleContentType)
      (request (Some "text/plain") None ["html"; "json"]) None None
    = negotiate pdfContentType (specMatch sampleContentType)
        (request (Some "text/plain") None ["html"; "json"]) None None.
Proof.
  split.
  - destruct (X7_one_collaborator_per_path sampleContentType
                (specMatch sampleContentType)
                (request None None ["html"; "json"]) None None)
      as [Hwildcard _].
    apply Hwildcard. decide_by_computation.
  - destruct (X7_one_collaborator_per_path sampleContentType
                (specMatch sampleContentType)
                (request (Some "text/plain") None ["html"; "json"])
                None None)
      as [_ Hmatch].
    apply Hmatch. decide_by_computation.
Defined.

Lemma X8_witness :
  sampleNegotiate (request (Some "text/plain") None ["html"; "txt"]) None None
  = Throws UndefinedFormatError.
Proof.
  apply (X8_negotiate_throws_iff sampleContentType
           (specMatch sampleContentType)
           (request (Some "text/plain") None ["html"; "txt"]) None None
           UndefinedFormatError).
  split; reflexivity.
Defined.

Lemma X9_witness :
  ∃ f ct,
    {| format := Some "pdf"; contentType := Some "application/pdf" |}
    = {| format := Some f; contentType := Some ct |}
    ∧ ct ≠ "".
Proof.
  apply (X9_result_is_complete pdfContentType (specMatch pdfContentType)
           (request (Some "application/pdf;q=0.5") None ["html"])
           (Some "pdf") None).
  reflexivity.
Defined.

Lemma X10_witness :
  format {| format := Some "json"; contentType := Some "application/json" |}
  = Some "json"
  ∧ ("json" ∈ respondsWith (request None (Some "json") ["html"; "json"])
     ∨ "json" ∈ keys (default [] None)).
Proof.
  destruct (X10_hint_or_failure sampleContentType
              (specMatch sampleContentType)
              (request None (Some "json") ["html"; "json"]) None None
              {| format := Some "json";
                 contentType := Some "application/json" |} eq_refl)
    as [_ Hparam].
  apply (Hparam "json"); [reflexivity | reflexivity | discriminate].
Defined.

Lemma X11_witness :
  sampleNegotiate (request (Some "text/html") (Some "html") []) (Some "")
    (Some [])
  = Throws UndefinedFormatError.
Proof.
  apply (X11_no_formats_no_negotiation sampleContentType
           (specMatch sampleContentType)
           (request (Some "text/html") (Some "html") []) (Some "")
           (Some [])); reflexivity.
Defined.

(** A format named like a function of [Object.prototype] reaches that
    function, not [respond]. *)
Example respondTo_inherited_function :
  respondTo (Body := string) (λ _, Some "text/plain")
    (specMatch (λ _, Some "text/plain"))
    (request None None ["toString"]) widget None None "cb"
  = Returns
      (CallStrategy (Inherited "toString") widget
         (mixin ∅ [ ∅; negotiated_props
                         {| format := Some "toString";
                            contentType := Some "text/plain" |} ])
         "cb").
Proof. reflexivity. Qed.


Lemma X13_witness :
  completed (request None (Some "pdf") ["html"]) = false
  ∧ widget = widget ∧ "cb" = "cb"
  ∧ ∃ f ct,
      negotiate pdfContentType (specMatch pdfContentType)
        (request None (Some "pdf") ["html"]) None (Some sampleStrategies)
      = Returns {| format := Some f; contentType := Some ct |}
      ∧ prop (default [] (Some sampleStrategies)) f
        = Some (Function (UserStrategy "pdf")).
Proof.
  destruct (X13_dispatch_by_negotiated_format (Body := string)
              pdfContentType (specMatch pdfContentType)
              (request None (Some "pdf") ["html"]) widget
              (Some sampleStrategies) None "cb") as [Hcall _].
  apply (Hcall (UserStrategy "pdf") widget
           (mixin ∅ [ ∅; negotiated_props
                           {| format := Some "pdf";
                              contentType := Some "application/pdf" |} ])
           "cb").
  reflexivity.
Defined.

Lemma X14_witness :
  (∃ f ct,
     negotiate pdfContentType (specMatch pdfContentType)
       (request None (Some "pdf") ["html"]) None (Some sampleStrategies)
     = Returns {| format := Some f; contentType := Some ct |}
     ∧ get (mixin ∅ [ {[ "format" := VString "html"; "layout" := VBool false ]};
                      negotiated_props
                        {| format := Some "pdf";
                           contentType := Some "application/pdf" |} ])
         "format" = VString f
     ∧ get (mixin ∅ [ {[ "format" := VString "html"; "layout" := VBool false ]};
                      negotiated_props
                        {| format := Some "pdf";
                           contentType := Some "application/pdf" |} ])
         "contentType" = VString ct)
  ∧ (∀ k, k ≠ "format" → k ≠ "contentType" →
       get (mixin ∅ [ {[ "format" := VString "html"; "layout" := VBool false ]};
                      negotiated_props
                        {| format := Some "pdf";
                           contentType := Some "application/pdf" |} ]) k
       = get (default ∅
                (Some {[ "format" := VString "html";
                         "layout" := VBool false ]})) k).
Proof.
  apply (X14_negotiated_options_win (Body := string)
           pdfContentType (specMatch pdfContentType)
           (request None (Some "pdf") ["html"]) widget
           (Some sampleStrategies)
           (Some {[ "format" := VString "html"; "layout" := VBool false ]})
           "cb"
           (CallStrategy (UserStrategy "pdf") widget
              (mixin ∅ [ {[ "format" := VString "html";
                            "layout" := VBool false ]};
                         negotiated_props
                           {| format := Some "pdf";
                              contentType := Some "application/pdf" |} ])
              "cb")); reflexivity.
Defined.

Lemma X15_witness :
  ∃ a,
    sampleRespondTo (request None (Some "json") ["html"]) widget
      (Some sampleStrategies)
      (Some {[ "contentType" := VString "text/plain" ]}) "cb"
    = Returns a
    ∧ ∀ body,
        formatted a body
        = Some (DoResponse
                  (or_else
                     (get (default ∅
                             (Some {[ "contentType" := VString "text/plain" ]}))
                        "statusCode")
                     (VNumber 200))
                  {[ "Content-Type" := VString "application/json" ]}
                  body "cb").
Proof.
  apply (X15_default_response (Body := string) sampleContentType
           (specMatch sampleContentType)
           (request None (Some "json") ["html"]) widget
           (Some sampleStrategies)
           (Some {[ "contentType" := VString "text/plain" ]}) "cb"
           "json" "application/json"); [reflexivity | reflexivity |].
  intros h. discriminate.
Defined.

Lemma X16_witness : truthy (VNumber 200) = true.
Proof.
  apply (X16_status_is_truthy (Callback := string) (Body := string)
           widget (Some {[ "statusCode" := VNumber 0 ]}) "cb" "body"
           (VNumber 200) {[ "Content-Type" := VUndefined ]} "body" "cb").
  reflexivity.
Defined.

Lemma X17_witness :
  ∃ f,
    format {| format := Some "pdf"; contentType := Some "application/pdf" |}
    = Some f
    ∧ (f ∈ respondsWith (request (Some "application/pdf") (Some "pdf") [])
       ∨ f ∈ keys (default [] (Some sampleStrategies))).
Proof.
  apply (X17_returned_format_is_declared pdfContentType
           (specMatch pdfContentType)
           (request (Some "application/pdf") (Some "pdf") []) None
           (Some sampleStrategies)); reflexivity.
Defined.


Lemma X20_witness :
  ∃ f ct,
    sampleNegotiate (request (Some "text/plain") (Some "txt") ["html"]) None
      (Some respondWithStrategies)
    = Returns {| format := Some f; contentType := Some ct |}
    ∧ (f = "html" ∧ ApiStrategy = HtmlStrategy
       ∨ f ∈ ["json"; "xml"; "js"; "txt"] ∧ ApiStrategy = ApiStrategy
       ∨ f ∈ objectPrototypeFunctions
         ∧ f ∈ respondsWith (request (Some "text/plain") (Some "txt") ["html"])
         ∧ ApiStrategy = Inherited f).
Proof.
  destruct (X20_respondWith_strategies (Body := string) sampleContentType
              (specMatch sampleContentType)
              (request (Some "text/plain") (Some "txt") ["html"]) widget
              None "cb") as [Hcall _].
  apply (Hcall ApiStrategy widget
           (mixin ∅ [ <[ "type" := VString "widget" ]> ∅;
                      negotiated_props
                        {| format := Some "txt";
                           contentType := Some "text/plain" |} ])
           "cb").
  reflexivity.
Defined.
